(** * image_story: the two-stage image-to-story pipeline of [main.py]

    A shallow embedding of [ImageStoryGenerator] (its constructor,
    [process_image] and [generate_story_from_image]) and of the start-up
    check on the API credential, followed by the properties of the pipeline.

    Conventions of the embedding.
    - A Python [str] is a [string]; a character is a code point below 256.
    - A Python [bytes] object is a [list byte].
    - Values decoded from a JSON body, and the JSON request payloads, are
      terms of [value].
    - A method is a computation of the monad [py]: it reads and may update
      the generator object, may raise, may log and may post an HTTP
      request; the answer to a request is chosen by the environment. *)

From Stdlib Require Import ZArith QArith Lia Ascii String List.
From Stdlib Require Import Strings.Byte.
From stdpp Require Import base option strings list gmap pretty.
Import ListNotations.

Set Warnings "-register-all".

Local Open Scope Z_scope.
Local Open Scope string_scope.
Local Open Scope list_scope.

(** ** Characters and strings as Python has them *)

Module PyStr.

Definition LF : ascii := "010"%char.
Definition CR : ascii := "013"%char.
Definition TAB : ascii := "009"%char.
Definition SQUOTE : ascii := "039"%char.
Definition DQUOTE : ascii := "034"%char.
Definition BACKSLASH : ascii := "092"%char.

(** A one-character string, and the line feed as a string. *)
Definition chr (c : ascii) : string := String c EmptyString.
Definition nl : string := chr LF.

(** [sep.join(parts)] *)
Fixpoint join (sep : string) (parts : list string) : string :=
  match parts with
  | [] => EmptyString
  | [p] => p
  | p :: rest => p +:+ sep +:+ join sep rest
  end.

(** [s.split(sep)] for a separator of one character: the text is cut at
    every occurrence of the separator and every piece is kept, the empty
    ones too; the result of splitting the empty string is [['']]. *)
Fixpoint split (sep : ascii) (s : string) : list string :=
  match s with
  | EmptyString => [EmptyString]
  | String c s' =>
      if Ascii.eqb c sep then EmptyString :: split sep s'
      else match split sep s' with
           | piece :: pieces => String c piece :: pieces
           | [] => [chr c]
           end
  end.

(** [t in s] *)
Fixpoint contains (s t : string) : bool :=
  String.prefix t s ||
  match s with
  | EmptyString => false
  | String _ s' => contains s' t
  end.

(** [t] occurs in [s]. *)
Definition substring (t s : string) : Prop :=
  exists pre post, s = pre +:+ t +:+ post.

(** The strings [ts] occur in [s] one after the other, without overlap. *)
Fixpoint occur_in_order (ts : list string) (s : string) : Prop :=
  match ts with
  | [] => True
  | t :: ts' => exists pre post, s = pre +:+ t +:+ post /\ occur_in_order ts' post
  end.

(** [c in s] for a character. *)
Fixpoint has_char (c : ascii) (s : string) : bool :=
  match s with
  | EmptyString => false
  | String d s' => Ascii.eqb d c || has_char c s'
  end.

End PyStr.

(** ** [repr] and [str] of strings and lists of strings

    The f-string of the story prompt interpolates the list returned by
    [process_image]; Python renders a list as the [repr] of its elements,
    separated by a comma and a space, between square brackets. *)

Module PyRepr.
Import PyStr.

Definition hex_digit (n : N) : ascii :=
  match String.get (N.to_nat n) "0123456789abcdef" with
  | Some c => c
  | None => "0"%char
  end.

(** The escape of a character as backslash, x and two hexadecimal digits. *)
Definition hex_escape (c : ascii) : string :=
  let n := N_of_ascii c in
  String BACKSLASH (String "x" (String (hex_digit (n / 16)) (chr (hex_digit (n mod 16))))).

(** [str.isprintable] on the characters above the ASCII range that a
    [string] holds: the C1 controls, the no-break space and the soft
    hyphen are not printable. *)
Definition isprintable_high (c : ascii) : bool :=
  let n := N_of_ascii c in
  ((161 <=? n) && negb (n =? 173))%N.

Definition repr_char (quote c : ascii) : string :=
  let n := N_of_ascii c in
  if Ascii.eqb c quote || Ascii.eqb c BACKSLASH then String BACKSLASH (chr c)
  else if Ascii.eqb c TAB then String BACKSLASH "t"
  else if Ascii.eqb c LF then String BACKSLASH "n"
  else if Ascii.eqb c CR then String BACKSLASH "r"
  else if ((n <? 32) || (n =? 127))%N then hex_escape c
  else if (n <? 127)%N then chr c
  else if isprintable_high c then chr c
  else hex_escape c.

Fixpoint repr_chars (quote : ascii) (s : string) : string :=
  match s with
  | EmptyString => EmptyString
  | String c s' => repr_char quote c +:+ repr_chars quote s'
  end.

(** The quote of the literal: a single quote, unless the text has single
    quotes and no double quote. *)
Definition repr_quote (s : string) : ascii :=
  if has_char SQUOTE s && negb (has_char DQUOTE s) then DQUOTE else SQUOTE.

(** [repr(s)] *)
Definition repr (s : string) : string :=
  let quote := repr_quote s in
  String quote (repr_chars quote s +:+ chr quote).

(** [str(l)] for a list of strings. *)
Definition str_list (l : list string) : string :=
  "[" +:+ join ", " (map repr l) +:+ "]".

(** [str(n)] for an integer. CPython refuses to render an integer of
    more than [sys.int_info.default_max_str_digits] decimal digits, which
    is 4300, and raises [ValueError]: [None] stands for that refusal. An
    integer has more than 4300 digits when its absolute value reaches
    [10 ^ 4300]. *)
Definition int_max_str_digits : Z := 4300.

Definition int_str_limit : Z := (10 ^ int_max_str_digits)%Z.

Definition str_int (n : Z) : option string :=
  if (Z.abs n <? int_str_limit)%Z then Some (pretty n) else None.

(** [str(x)] where [x] is a string or [None]. *)
Definition str_opt (x : option string) : string :=
  match x with
  | Some s => s
  | None => "None"
  end.

End PyRepr.

(** ** [base64.b64encode] *)

Module Base64.

Definition alphabet : string :=
  "ABCDEFGHIJKLMNOPQRSTUVWXYZabcdefghijklmnopqrstuvwxyz0123456789+/".

Definition digit (n : N) : ascii :=
  match String.get (N.to_nat n) alphabet with
  | Some c => c
  | None => "="%char
  end.

(** Three bytes give four digits; one or two remaining bytes are padded
    with [=]. The result is ASCII, so decoding it as UTF-8 is the
    identity. *)
Fixpoint b64encode (bs : list byte) : string :=
  match bs with
  | [] => EmptyString
  | [a] =>
      let n := (Byte.to_N a * 65536)%N in
      String (digit (n / 262144)) (String (digit ((n / 4096) mod 64)) "==")
  | [a; b] =>
      let n := (Byte.to_N a * 65536 + Byte.to_N b * 256)%N in
      String (digit (n / 262144)) (String (digit ((n / 4096) mod 64))
        (String (digit ((n / 64) mod 64)) "="))
  | a :: b :: c :: rest =>
      let n := (Byte.to_N a * 65536 + Byte.to_N b * 256 + Byte.to_N c)%N in
      String (digit (n / 262144)) (String (digit ((n / 4096) mod 64))
        (String (digit ((n / 64) mod 64)) (String (digit (n mod 64))
          (b64encode rest))))
  end.

End Base64.

(** ** Python values, exceptions and subscripting *)

(** The values that [response.json()] can produce, which are also the
    values of the request payloads. A dictionary is an association list
    read from the left; its keys are strings, as in every decoded JSON
    object. *)
Inductive value : Type :=
| VNone
| VBool (b : bool)
| VInt (n : Z)
| VFloat (q : Q)
| VStr (s : string)
| VList (l : list value)
| VDict (d : list (string * value)).

(** The exception classes that the pipeline meets. [RequestException]
    stands for what [requests.post] raises on a transport failure
    (connection error, timeout, ...). *)
Inductive exn : Type :=
| RequestException (what : string)
| HTTPError (status : Z)
| JSONDecodeError
| KeyError (key : value)
| IndexError
| TypeError
| AttributeError
| ValueError (msg : string).

Fixpoint dict_get (d : list (string * value)) (k : string) : option value :=
  match d with
  | [] => None
  | (k', v) :: d' => if String.eqb k' k then Some v else dict_get d' k
  end.

(** [v[k]] for a string key [k]. *)
Definition getitem_key (v : value) (k : string) : exn + value :=
  match v with
  | VDict d =>
      match dict_get d k with
      | Some x => inr x
      | None => inl (KeyError (VStr k))
      end
  | _ => inl TypeError
  end.

(** [v[i]] for an index [i] that is not negative. *)
Definition getitem_index (v : value) (i : nat) : exn + value :=
  match v with
  | VList l =>
      match nth_error l i with
      | Some x => inr x
      | None => inl IndexError
      end
  | VStr s =>
      match String.get i s with
      | Some c => inr (VStr (PyStr.chr c))
      | None => inl IndexError
      end
  | VDict _ => inl (KeyError (VInt (Z.of_nat i)))
  | _ => inl TypeError
  end.

(** [v.split(sep)]: only a string has the method. *)
Definition call_split (v : value) (sep : ascii) : exn + list string :=
  match v with
  | VStr s => inr (PyStr.split sep s)
  | _ => inl AttributeError
  end.

(** Sequencing of expressions that may raise. *)
Definition and_then {A B : Type} (r : exn + A) (f : A -> exn + B) : exn + B :=
  match r with
  | inl e => inl e
  | inr a => f a
  end.

(** [result['choices'][0]['message']['content']] *)
Definition message_content (result : value) : exn + value :=
  and_then (getitem_key result "choices") (fun choices =>
  and_then (getitem_index choices 0) (fun choice =>
  and_then (getitem_key choice "message") (fun message =>
  getitem_key message "content"))).

(** ** HTTP requests and the effects of a method *)

Record request : Type := Request {
  url : string;
  headers : list (string * string);
  json : value
}.

(** A response: its status, and its body as [response.json()] decodes it,
    [None] when the body is not JSON and the decoder raises. *)
Record response : Type := Response {
  status_code : Z;
  body : option value
}.

(** What one call of [requests.post] does: it raises or it returns. *)
Inductive outcome : Type :=
| Raises (e : exn)
| Returns (r : response).

Inductive level : Type := INFO | ERROR.

Record Logger : Type := { logger_name : string }.

(** A computation that logs and posts requests; the continuation of a
    request receives what the backend did. *)
Inductive io (A : Type) : Type :=
| Ret (a : A)
| Log (lg : Logger) (lv : level) (msg : string) (exc : option exn) (k : io A)
| Post (rq : request) (k : outcome -> io A).

Arguments Ret {A} a.
Arguments Log {A} lg lv msg exc k.
Arguments Post {A} rq k.

Fixpoint io_bind {A B : Type} (m : io A) (f : A -> io B) : io B :=
  match m with
  | Ret a => f a
  | Log lg lv msg exc k => Log lg lv msg exc (io_bind k f)
  | Post rq k => Post rq (fun o => io_bind (k o) f)
  end.

(** [response.raise_for_status()]: an error for the statuses 400 to 599. *)
Definition is_error_status (s : Z) : bool := ((400 <=? s) && (s <? 600))%Z.

Definition raise_for_status (r : response) : exn + unit :=
  if is_error_status (status_code r) then inl (HTTPError (status_code r))
  else inr tt.

(** [response.json()] *)
Definition response_json (r : response) : exn + value :=
  match body r with
  | Some v => inr v
  | None => inl JSONDecodeError
  end.

(** ** The generator object and the monad of its methods *)

Record ImageStoryGenerator : Type := Generator {
  logger : Logger;
  api_key : option string;
  model : string;
  temperature : Q;
  max_tokens : Z;
  cache : gmap string value;
  image_processing_prompt : string
}.

(** A method runs on the object [self], which it may read and update, and
    ends by returning a value or by raising. *)
Definition py (A : Type) : Type :=
  ImageStoryGenerator -> io ((exn + A) * ImageStoryGenerator).

Module Py.

Definition ret {A} (a : A) : py A := fun self => Ret (inr a, self).

Definition raise {A} (e : exn) : py A := fun self => Ret (inl e, self).

Definition bind {A B} (m : py A) (f : A -> py B) : py B :=
  fun self =>
    io_bind (m self) (fun '(r, self') =>
      match r with
      | inl e => Ret (inl e, self')
      | inr a => f a self'
      end).

(** [try: body except Exception as e: handler e] *)
Definition try_except {A} (body : py A) (handler : exn -> py A) : py A :=
  fun self =>
    io_bind (body self) (fun '(r, self') =>
      match r with
      | inl e => handler e self'
      | inr a => Ret (inr a, self')
      end).

(** The result of an expression that may raise. *)
Definition eval {A} (r : exn + A) : py A := fun self => Ret (r, self).

(** [self.f] *)
Definition attr {X} (f : ImageStoryGenerator -> X) : py X :=
  fun self => Ret (inr (f self), self).

(** [self.logger.info(msg)] *)
Definition logger_info (msg : string) : py unit :=
  fun self => Log (logger self) INFO msg None (Ret (inr tt, self)).

(** [self.logger.error(f"{msg}{e}")] *)
Definition logger_error (msg : string) (e : exn) : py unit :=
  fun self => Log (logger self) ERROR msg (Some e) (Ret (inr tt, self)).

(** [requests.post(url, headers=headers, json=json)] *)
Definition requests_post (url : string) (headers : list (string * string))
    (json : value) : py response :=
  fun self =>
    Post (Request url headers json) (fun o =>
      match o with
      | Raises e => Ret (inl e, self)
      | Returns r => Ret (inr r, self)
      end).

End Py.

Declare Scope py_scope.
Delimit Scope py_scope with py.
Notation "'let*' x ':=' m 'in' k" := (Py.bind m (fun x => k))
  (at level 10, x name, m at level 100, k at level 200) : py_scope.
Notation "'run*' m 'in' k" := (Py.bind m (fun _ => k))
  (at level 10, m at level 100, k at level 200) : py_scope.

(** ** The constructor and the two methods *)

Definition completions_url : string :=
  "https://api.openai.com/v1/chat/completions".

(** [os.getenv]: the value of a variable of the process environment, or
    [None]. *)
Definition getenv (env : gmap string string) (k : string) : option string :=
  env !! k.

(** The text of [self.image_processing_prompt], line by line. *)
Definition image_processing_prompt_text : string :=
  PyStr.nl +:+
  "        You are an expert in analyzing and describing visual imagery. Your task is to provide a detailed, rich, and descriptive analysis of the provided image that highlights its key features, elements, and any potential themes or moods it might evoke." +:+ PyStr.nl +:+
  PyStr.nl +:+
  "        Instructions:" +:+ PyStr.nl +:+
  "        - Review the image and identify the key visual elements and features (e.g., colors, shapes, textures, composition, etc.)." +:+ PyStr.nl +:+
  "        - Describe the visual appearance of each person, including their clothing and any distinct characteristics." +:+ PyStr.nl +:+
  "        - Return the description of each person in a list format." +:+ PyStr.nl +:+
  "        ".

Definition __init__ (env : gmap string string) (logger : Logger)
    : ImageStoryGenerator :=
  {| logger := logger;
     api_key := getenv env "OPENAI_API_KEY";
     model := "gpt-4o-mini";
     temperature := 0.5%Q;
     max_tokens := 400;
     cache := ∅;
     image_processing_prompt := image_processing_prompt_text |}.

(** The headers of both requests. *)
Definition request_headers (api_key : option string) : list (string * string) :=
  [("Content-Type", "application/json");
   ("Authorization", "Bearer " +:+ PyRepr.str_opt api_key)].

(** The payload of the vision request. *)
Definition image_payload (model prompt encoded_image : string) (max_tokens : Z)
    : value :=
  VDict
    [("model", VStr model);
     ("messages",
      VList
        [VDict
           [("role", VStr "user");
            ("content",
             VList
               [VDict [("type", VStr "text"); ("text", VStr prompt)];
                VDict
                  [("type", VStr "image_url");
                   ("image_url",
                    VDict
                      [("url",
                        VStr ("data:image/jpeg;base64," +:+ encoded_image))])]])]]);
     ("max_tokens", VInt max_tokens)].

Definition process_image (image_data : list byte) : py (list string) :=
  (run* Py.logger_info "Processing image attachment" in
   Py.try_except
     (let encoded_image := Base64.b64encode image_data in
      let* api_key := Py.attr api_key in
      let headers := request_headers api_key in
      let* model := Py.attr model in
      let* prompt := Py.attr image_processing_prompt in
      let* max_tokens := Py.attr max_tokens in
      let payload := image_payload model prompt encoded_image max_tokens in
      let* response := Py.requests_post completions_url headers payload in
      run* Py.eval (raise_for_status response) in
      let* result := Py.eval (response_json response) in
      let* content := Py.eval (message_content result) in
      let* descriptions := Py.eval (call_split content PyStr.LF) in
      Py.ret descriptions)
     (fun e =>
        run* Py.logger_error "Error processing image: " e in
        Py.ret []))%py.

(** The text of the story prompt around the names, the genre, the length
    as rendered and the descriptions. *)
Definition story_prompt_text (names_list genre length_text : string)
    (image_content : list string) : string :=
  PyStr.nl +:+
  "        Based on the following image description and the provided character names: "
    +:+ names_list +:+
  ", create a short story in the first person that is engaging and creative for a "
    +:+ genre +:+
  " audience. The story should be no more than "
    +:+ length_text +:+ " words." +:+ PyStr.nl +:+
  PyStr.nl +:+
  "        Image Description:" +:+ PyStr.nl +:+
  "        " +:+ PyRepr.str_list image_content +:+ PyStr.nl +:+
  "        ".

(** What [str] raises for an integer of too many digits. *)
Definition int_str_error : exn :=
  ValueError
    ("Exceeds the limit (4300 digits) for integer string conversion; " +:+
     "use sys.set_int_max_str_digits() to increase the limit").

(** The f-string of the story prompt: it renders the length, which may
    raise. *)
Definition story_prompt (names_list genre : string) (desired_length : Z)
    (image_content : list string) : exn + string :=
  match PyRepr.str_int desired_length with
  | Some length_text =>
      inr (story_prompt_text names_list genre length_text image_content)
  | None => inl int_str_error
  end.

(** The value returned when the story request fails. *)
Definition story_error : string := "Error generating story.".

(** The payload of the story request. *)
Definition story_payload (model story_prompt : string) (max_tokens : Z)
    (temperature : Q) : value :=
  VDict
    [("model", VStr model);
     ("messages",
      VList [VDict [("role", VStr "user"); ("content", VStr story_prompt)]]);
     ("max_tokens", VInt max_tokens);
     ("temperature", VFloat temperature)].

Definition generate_story_from_image (image_data : list byte)
    (people_names : list string) (genre : string) (desired_length : Z)
    : py value :=
  (run* Py.logger_info "Generating story from image" in
   let* image_content := process_image image_data in
   let names_list := PyStr.join ", " people_names in
   let* story_prompt :=
     Py.eval (story_prompt names_list genre desired_length image_content) in
   Py.try_except
     (let* api_key := Py.attr api_key in
      let headers := request_headers api_key in
      let* model := Py.attr model in
      let* max_tokens := Py.attr max_tokens in
      let* temperature := Py.attr temperature in
      let payload := story_payload model story_prompt max_tokens temperature in
      let* response := Py.requests_post completions_url headers payload in
      run* Py.eval (raise_for_status response) in
      let* result := Py.eval (response_json response) in
      let* story := Py.eval (message_content result) in
      Py.ret story)
     (fun e =>
        run* Py.logger_error "Error generating story: " e in
        Py.ret (VStr story_error)))%py.

(** ** Start-up

    The module reads the credential and raises when it is absent; the class
    and the generator that [run] constructs come after that check. *)

Definition api_key_missing : string :=
  "API key not found. Make sure to set it in your environment.".

Definition main (env : gmap string string) : exn + ImageStoryGenerator :=
  let api_key := getenv env "OPENAI_API_KEY" in
  match api_key with
  | None => inl (ValueError api_key_missing)
  | Some _ =>
      let logger := {| logger_name := "__main__" |} in
      inr (__init__ env logger)
  end.

(** ** Running a computation against a backend

    A backend answers each request from its own state, which it may change:
    a mock that always fails, one that replays a script, a real server. *)

Inductive event : Type :=
| EvLog (lg : Logger) (lv : level) (msg : string) (exc : option exn)
| EvPost (rq : request).

Section Run.
Context {B : Type} (respond : B -> request -> outcome * B).

(** The result, the final state of the backend and the events in the
    order they happened. *)
Fixpoint run {A : Type} (p : io A) (s : B) : A * B * list event :=
  match p with
  | Ret a => (a, s, [])
  | Log lg lv msg exc k =>
      let '(a, s', t) := run k s in (a, s', EvLog lg lv msg exc :: t)
  | Post rq k =>
      let '(o, s1) := respond s rq in
      let '(a, s', t) := run (k o) s1 in
      (a, s', EvPost rq :: t)
  end.

End Run.

(** The requests of a trace, in order. *)
Fixpoint requests_of (t : list event) : list request :=
  match t with
  | [] => []
  | EvPost rq :: t' => rq :: requests_of t'
  | EvLog _ _ _ _ :: t' => requests_of t'
  end.

(** ** The notebook front end: the two callbacks of [run]

    [on_button_click] runs when a file is uploaded, and the closure
    [on_generate_story_click] that it registers runs when the button is
    clicked. The widgets are the data the callbacks read and build; printing,
    displaying and registering a click handler are effects, as are the calls
    of the two methods of the generator. *)

(** [str.isspace] on one character: the ASCII white space, the four
    separators below the space, the next-line control and the no-break
    space. *)
Definition isspace (c : ascii) : bool :=
  let n := N_of_ascii c in
  (((9 <=? n) && (n <=? 13)) || ((28 <=? n) && (n <=? 32))
   || (n =? 133) || (n =? 160))%N.

Fixpoint lstrip (s : string) : string :=
  match s with
  | EmptyString => EmptyString
  | String c s' => if isspace c then lstrip s' else s
  end.

Fixpoint rstrip (s : string) : string :=
  match s with
  | EmptyString => EmptyString
  | String c s' =>
      match rstrip s' with
      | EmptyString => if isspace c then EmptyString else PyStr.chr c
      | kept => String c kept
      end
  end.

(** [s.strip()] *)
Definition strip (s : string) : string := rstrip (lstrip s).

(** The truth value of a string: it is not empty. *)
Definition truthy (s : string) : bool :=
  match s with
  | EmptyString => false
  | String _ _ => true
  end.

(** One entry of [file_upload.value]: the bytes of the file. *)
Record UploadedFile : Type := { content : list byte }.

(** A [widgets.Text]: a one-line input with its label and the text typed
    into it; the layout is the same for all of them. *)
Record Text : Type := {
  placeholder : string;
  description : string;
  text : string
}.

(** What the callbacks display: the box of the name inputs above the genre,
    the length and the button, and the story as HTML; the story between the
    tags is the value returned by [generate_story_from_image], as the
    f-string formats it. *)
Inductive displayed : Type :=
| NameForm (name_inputs : list Text)
| StoryHTML (story : value).

(** A callback prints, displays, registers on the button a closure over
    the image and the name inputs, and calls the methods of the generator. *)
Inductive ui (A : Type) : Type :=
| UiRet (a : A)
| UiPrint (line : string) (k : ui A)
| UiDisplay (w : displayed) (k : ui A)
| UiOnClick (uploaded_image : list byte) (name_inputs : list Text) (k : ui A)
| UiProcessImage (image_data : list byte) (k : exn + list string -> ui A)
| UiGenerateStory (image_data : list byte) (people_names : list string)
    (genre : string) (desired_length : Z) (k : exn + value -> ui A).

Arguments UiRet {A} a.
Arguments UiPrint {A} line k.
Arguments UiDisplay {A} w k.
Arguments UiOnClick {A} uploaded_image name_inputs k.
Arguments UiProcessImage {A} image_data k.
Arguments UiGenerateStory {A} image_data people_names genre desired_length k.

(** The name input made for a description. *)
Definition name_input (desc : string) : Text :=
  {| placeholder := "Enter name for " +:+ desc;
     description := desc;
     text := EmptyString |}.

(** [on_button_click(b)], given [file_upload.value]: the files by name, in
    the order of the dictionary. *)
Definition on_button_click (file_upload_value : list (string * UploadedFile))
    : ui (exn + unit) :=
  match file_upload_value with
  | [] => UiPrint "Please upload an image." (UiRet (inr tt))
  | (_, file) :: _ =>
      let uploaded_image := content file in
      UiProcessImage uploaded_image (fun r =>
        match r with
        | inl e => UiRet (inl e)
        | inr [] => UiPrint "Failed to process image." (UiRet (inr tt))
        | inr person_descriptions =>
            let name_inputs := map name_input person_descriptions in
            UiDisplay (NameForm name_inputs)
              (UiOnClick uploaded_image name_inputs (UiRet (inr tt)))
        end)
  end.

(** [on_generate_story_click(b)], the closure over [uploaded_image] and
    [name_inputs]; the name inputs are given as they are at the click, with
    the texts typed so far, and so are the values of the genre and length
    widgets. *)
Definition on_generate_story_click (uploaded_image : list byte)
    (name_inputs : list Text) (genre : string) (length : Z)
    : ui (exn + unit) :=
  let people_names :=
    map text (List.filter (fun name_input => truthy (strip (text name_input)))
                name_inputs) in
  match people_names with
  | [] => UiPrint "Please provide valid names." (UiRet (inr tt))
  | _ =>
      UiGenerateStory uploaded_image people_names genre length (fun r =>
        match r with
        | inl e => UiRet (inl e)
        | inr story => UiDisplay (StoryHTML story) (UiRet (inr tt))
        end)
  end.

(** The events of a callback: those of the methods it calls, and its own;
    the traceback is what the widget library shows when a callback raises. *)
Inductive ui_event : Type :=
| Method (e : event)
| Printed (line : string)
| Displayed (w : displayed)
| ClickHandler (uploaded_image : list byte) (name_inputs : list Text)
| Traceback (e : exn).

Section RunUi.
Context {B : Type} (respond : B -> request -> outcome * B).

(** A callback runs on the generator of [run] against the backend. *)
Fixpoint run_ui {A : Type} (p : ui A) (self : ImageStoryGenerator) (s : B)
    : A * ImageStoryGenerator * B * list ui_event :=
  match p with
  | UiRet a => (a, self, s, [])
  | UiPrint line k =>
      let '(a, self', s', t) := run_ui k self s in
      (a, self', s', Printed line :: t)
  | UiDisplay w k =>
      let '(a, self', s', t) := run_ui k self s in
      (a, self', s', Displayed w :: t)
  | UiOnClick uploaded_image name_inputs k =>
      let '(a, self', s', t) := run_ui k self s in
      (a, self', s', ClickHandler uploaded_image name_inputs :: t)
  | UiProcessImage image_data k =>
      let '(r, self1, s1, t1) := run respond (process_image image_data self) s in
      let '(a, self', s', t) := run_ui (k r) self1 s1 in
      (a, self', s', map Method t1 ++ t)
  | UiGenerateStory image_data people_names genre desired_length k =>
      let '(r, self1, s1, t1) :=
        run respond
          (generate_story_from_image image_data people_names genre
             desired_length self) s in
      let '(a, self', s', t) := run_ui (k r) self1 s1 in
      (a, self', s', map Method t1 ++ t)
  end.

End RunUi.

(** The requests, the printed lines and the displayed widgets of the
    events of a callback, in order. *)
Fixpoint ui_requests (t : list ui_event) : list request :=
  match t with
  | [] => []
  | Method (EvPost rq) :: t' => rq :: ui_requests t'
  | _ :: t' => ui_requests t'
  end.

Fixpoint ui_output (t : list ui_event) : list ui_event :=
  match t with
  | [] => []
  | Method _ :: t' => ui_output t'
  | e :: t' => e :: ui_output t'
  end.

(** ** The notebook front end: a session of [run]

    [run] creates the generator, the genre dropdown, the length slider and
    the button once, and every callback works on these. The button keeps
    the click handlers registered on it, in the order of registration:
    [on_click] appends a handler that is not registered yet, and each run of
    [on_button_click] makes a new closure, so that one handler is added per
    upload that shows a form. A handler holds the image and the name inputs
    of its form; it reads the texts of these inputs, the genre and the
    length when the button is clicked. *)

(** The options of [genre_input]. *)
Definition genre_options : list string :=
  ["adventure"; "fantasy"; "mystery"; "drama"; "horror"; "action"].

(** The bounds of [length_input]. *)
Definition length_min : Z := 100.
Definition length_max : Z := 500.

Record FrontEnd : Type := {
  image_story_generator : ImageStoryGenerator;
  genre_value : string;
  length_value : Z;
  click_handlers : list (list byte * list Text)
}.

(** The front end as [run] sets it up around its generator: the first
    genre is selected, the slider stands at 200, the button has no
    handler. *)
Definition front_end (self : ImageStoryGenerator) : FrontEnd :=
  {| image_story_generator := self;
     genre_value := "adventure";
     length_value := 200;
     click_handlers := [] |}.

(** What happens in a session: the value of the upload widget changes, a
    name is typed into an input of one of the forms shown so far, a genre
    is selected, the slider is moved, the button is clicked. *)
Inductive action : Type :=
| ValueChanged (file_upload_value : list (string * UploadedFile))
| NameTyped (form input : nat) (name : string)
| GenreSelected (genre : string)
| LengthSet (length : Z)
| ButtonClicked.

(** The handlers that the events of a callback register. *)
Fixpoint registered (t : list ui_event) : list (list byte * list Text) :=
  match t with
  | [] => []
  | ClickHandler uploaded_image name_inputs :: t' =>
      (uploaded_image, name_inputs) :: registered t'
  | _ :: t' => registered t'
  end.

(** An exception that leaves a callback is caught by the widget library,
    which shows its traceback. *)
Definition shown_traceback {A : Type} (r : exn + A) : list ui_event :=
  match r with
  | inl e => [Traceback e]
  | inr _ => []
  end.

Definition set_text (name : string) (w : Text) : Text :=
  {| placeholder := placeholder w; description := description w; text := name |}.

(** Typing into input [input] of form [form]: the handler of that form sees
    the new text; there is nothing to type into when the form or the input
    does not exist. *)
Definition type_name (form input : nat) (name : string)
    (handlers : list (list byte * list Text)) : list (list byte * list Text) :=
  alter (fun handler => (handler.1, alter (set_text name) input handler.2))
    form handlers.

(** The dropdown takes one of its options only. *)
Definition select_genre (genre current : string) : string :=
  if existsb (String.eqb genre) genre_options then genre else current.

(** The slider caps and floors the value it is given. *)
Definition set_length (length : Z) : Z :=
  Z.min (Z.max length length_min) length_max.

Section Session.
Context {B : Type} (respond : B -> request -> outcome * B).

(** A click calls every handler of the button, in the order of
    registration; a handler that raises does not stop the others. *)
Fixpoint dispatch (handlers : list (list byte * list Text)) (genre : string)
    (length : Z) (self : ImageStoryGenerator) (s : B)
    : ImageStoryGenerator * B * list ui_event :=
  match handlers with
  | [] => (self, s, [])
  | (uploaded_image, name_inputs) :: rest =>
      let '(r, self1, s1, t1) :=
        run_ui respond
          (on_generate_story_click uploaded_image name_inputs genre length)
          self s in
      let '(self2, s2, t2) := dispatch rest genre length self1 s1 in
      (self2, s2, t1 ++ shown_traceback r ++ t2)
  end.

Definition step (a : action) (fe : FrontEnd) (s : B)
    : FrontEnd * B * list ui_event :=
  match a with
  | ValueChanged file_upload_value =>
      let '(r, self, s', t) :=
        run_ui respond (on_button_click file_upload_value)
          (image_story_generator fe) s in
      ({| image_story_generator := self;
          genre_value := genre_value fe;
          length_value := length_value fe;
          click_handlers := click_handlers fe ++ registered t |},
       s', t ++ shown_traceback r)
  | NameTyped form input name =>
      ({| image_story_generator := image_story_generator fe;
          genre_value := genre_value fe;
          length_value := length_value fe;
          click_handlers := type_name form input name (click_handlers fe) |},
       s, [])
  | GenreSelected genre =>
      ({| image_story_generator := image_story_generator fe;
          genre_value := select_genre genre (genre_value fe);
          length_value := length_value fe;
          click_handlers := click_handlers fe |},
       s, [])
  | LengthSet length =>
      ({| image_story_generator := image_story_generator fe;
          genre_value := genre_value fe;
          length_value := set_length length;
          click_handlers := click_handlers fe |},
       s, [])
  | ButtonClicked =>
      let '(self, s', t) :=
        dispatch (click_handlers fe) (genre_value fe) (length_value fe)
          (image_story_generator fe) s in
      ({| image_story_generator := self;
          genre_value := genre_value fe;
          length_value := length_value fe;
          click_handlers := click_handlers fe |},
       s', t)
  end.

Fixpoint session (actions : list action) (fe : FrontEnd) (s : B)
    : FrontEnd * B * list ui_event :=
  match actions with
  | [] => (fe, s, [])
  | a :: rest =>
      let '(fe1, s1, t1) := step a fe s in
      let '(fe2, s2, t2) := session rest fe1 s1 in
      (fe2, s2, t1 ++ t2)
  end.

End Session.

(** ** Vocabulary of the properties *)

(** The components of the outcome of running a method: what it returned or
    raised, the object afterwards, the backend afterwards, the events. *)
Definition returned {A B : Type}
    (x : (exn + A) * ImageStoryGenerator * B * list event) : exn + A :=
  x.1.1.1.

Definition object_after {A B : Type}
    (x : (exn + A) * ImageStoryGenerator * B * list event) : ImageStoryGenerator :=
  x.1.1.2.

Definition backend_after {A B : Type}
    (x : (exn + A) * ImageStoryGenerator * B * list event) : B :=
  x.1.2.

Definition trace {A B : Type}
    (x : (exn + A) * ImageStoryGenerator * B * list event) : list event :=
  x.2.

(** The request that [process_image] posts for an image. *)
Definition vision_request (self : ImageStoryGenerator) (image_data : list byte)
    : request :=
  Request completions_url (request_headers (api_key self))
    (image_payload (model self) (image_processing_prompt self)
       (Base64.b64encode image_data) (max_tokens self)).

(** The request that [generate_story_from_image] posts for a prompt. *)
Definition story_request (self : ImageStoryGenerator) (prompt : string)
    : request :=
  Request completions_url (request_headers (api_key self))
    (story_payload (model self) prompt (max_tokens self) (temperature self)).

(** The story prompt for a length that [str] renders. *)
Definition prompt_for (names_list genre : string) (desired_length : Z)
    (image_content : list string) : string :=
  story_prompt_text names_list genre (pretty desired_length) image_content.

(** What a [try] block obtains from the outcome of its request: the message
    content of the first choice, or the exception met on the way. *)
Definition content_of (o : outcome) : exn + value :=
  match o with
  | Raises e => inl e
  | Returns r =>
      and_then (raise_for_status r) (fun _ =>
      and_then (response_json r) message_content)
  end.

(** The backend behaviours that make the vision stage fail: the call
    raises, the status is an error, the body is not JSON, or the body has no
    string at [choices[0].message.content]. *)
Definition vision_failure (o : outcome) : Prop :=
  match o with
  | Raises _ => True
  | Returns r =>
      is_error_status (status_code r) = true \/
      body r = None \/
      exists result, body r = Some result /\
        forall content, message_content result <> inr (VStr content)
  end.

(** The backend behaviours that make the story request fail: the call
    raises, the status is an error, the body is not JSON, or the path
    [choices[0].message.content] is missing from the body. *)
Definition story_failure (o : outcome) : Prop :=
  match o with
  | Raises _ => True
  | Returns r =>
      is_error_status (status_code r) = true \/
      body r = None \/
      exists result e, body r = Some result /\ message_content result = inl e
  end.

(** The non-empty lines of a text, as the specification words the parse of
    the vision response. *)
Definition spec_nonempty_lines (content : string) : list string :=
  filter (fun line => line <> EmptyString) (PyStr.split PyStr.LF content).

(** A line: a text without line feed. *)
Definition is_line (s : string) : Prop := PyStr.has_char PyStr.LF s = false.

(** A text that [repr] copies between the quotes without any escape. *)
Definition unescaped (s : string) : Prop :=
  PyRepr.repr_chars (PyRepr.repr_quote s) s = s.

(** A printable ASCII character other than the quotes and the backslash,
    and a text made of such characters. *)
Definition plain_char (c : ascii) : bool :=
  let n := N_of_ascii c in
  ((32 <=? n) && (n <? 127))%N
  && negb (Ascii.eqb c PyStr.SQUOTE) && negb (Ascii.eqb c PyStr.DQUOTE)
  && negb (Ascii.eqb c PyStr.BACKSLASH).

Fixpoint plain (s : string) : bool :=
  match s with
  | EmptyString => true
  | String c s' => plain_char c && plain s'
  end.

(** Reading back the rendering of a list of strings: the inverse of [str]
    on such lists, as Python would evaluate the literal. It serves to state
    that the rendering loses nothing of the descriptions. *)
Definition hex_value (c : ascii) : option N :=
  let n := N_of_ascii c in
  if ((48 <=? n) && (n <=? 57))%N then Some (n - 48)%N
  else if ((97 <=? n) && (n <=? 102))%N then Some (n - 87)%N
  else None.

Definition read_more (c : ascii) (r : option (string * string))
    : option (string * string) :=
  match r with
  | Some (text, rest) => Some (String c text, rest)
  | None => None
  end.

(** The characters of a literal up to its closing quote, and what follows
    the quote. *)
Fixpoint read_chars (quote : ascii) (s : string) : option (string * string) :=
  match s with
  | EmptyString => None
  | String c s1 =>
      if Ascii.eqb c quote then Some (EmptyString, s1)
      else if Ascii.eqb c PyStr.BACKSLASH then
        match s1 with
        | EmptyString => None
        | String d s2 =>
            if Ascii.eqb d "x" then
              match s2 with
              | String h1 (String h2 s3) =>
                  match hex_value h1, hex_value h2 with
                  | Some a, Some b =>
                      read_more (ascii_of_N (16 * a + b)) (read_chars quote s3)
                  | _, _ => None
                  end
              | _ => None
              end
            else if Ascii.eqb d "t" then read_more PyStr.TAB (read_chars quote s2)
            else if Ascii.eqb d "n" then read_more PyStr.LF (read_chars quote s2)
            else if Ascii.eqb d "r" then read_more PyStr.CR (read_chars quote s2)
            else read_more d (read_chars quote s2)
        end
      else read_more c (read_chars quote s1)
  end.

(** One string literal at the head of a text. *)
Definition read_repr (s : string) : option (string * string) :=
  match s with
  | EmptyString => None
  | String quote s1 =>
      if Ascii.eqb quote PyStr.SQUOTE || Ascii.eqb quote PyStr.DQUOTE
      then read_chars quote s1
      else None
  end.

(** The literals of a list after its opening bracket; each literal is
    followed by a comma and a space or by the closing bracket. *)
Fixpoint read_items (fuel : nat) (s : string) : option (list string) :=
  match fuel with
  | O => None
  | S fuel' =>
      match read_repr s with
      | Some (item, String "]" EmptyString) => Some [item]
      | Some (item, String "," (String " " rest)) =>
          match read_items fuel' rest with
          | Some items => Some (item :: items)
          | None => None
          end
      | _ => None
      end
  end.

Definition read_str_list (s : string) : option (list string) :=
  match s with
  | String "[" (String "]" EmptyString) => Some []
  | String "[" s1 => read_items (String.length s1) s1
  | _ => None
  end.

(** A backend whose answer to a request does not depend on its state. *)
Definition deterministic {B : Type} (respond : B -> request -> outcome * B)
    : Prop :=
  forall s s' rq, (respond s rq).1 = (respond s' rq).1.

(** The generator with another cache. *)
Definition with_cache (c : gmap string value) (self : ImageStoryGenerator)
    : ImageStoryGenerator :=
  {| logger := logger self;
     api_key := api_key self;
     model := model self;
     temperature := temperature self;
     max_tokens := max_tokens self;
     cache := c;
     image_processing_prompt := image_processing_prompt self |}.

(** The generators that a program can hold: the one just constructed, and
    the object left by a call of either method, whatever the backend does. *)
Inductive reachable : ImageStoryGenerator -> Prop :=
| reachable_init env logger :
    reachable (__init__ env logger)
| reachable_process_image self B (respond : B -> request -> outcome * B) s
    image_data :
    reachable self ->
    reachable (object_after (run respond (process_image image_data self) s))
| reachable_generate_story self B (respond : B -> request -> outcome * B) s
    image_data people_names genre desired_length :
    reachable self ->
    reachable (object_after (run respond
      (generate_story_from_image image_data people_names genre desired_length self) s)).

(** The records logged at the level ERROR in a trace: the message and the
    exception of each, in order. *)
Fixpoint error_logs (t : list event) : list (string * option exn) :=
  match t with
  | [] => []
  | EvLog _ ERROR msg exc :: t' => (msg, exc) :: error_logs t'
  | _ :: t' => error_logs t'
  end.

(** The headers that both requests carry for a credential. *)
Definition bearer_headers (credential : string) : list (string * string) :=
  [("Content-Type", "application/json");
   ("Authorization", "Bearer " +:+ credential)].

(** Decoding base64, as the receiver of the image does: the value of a
    digit, and the bytes of a text of groups of four digits, the last group
    padded with [=]. It serves to state that the encoding of the image
    loses nothing. *)
Definition digit_value (c : ascii) : option N :=
  let n := N_of_ascii c in
  if ((65 <=? n) && (n <=? 90))%N then Some (n - 65)%N
  else if ((97 <=? n) && (n <=? 122))%N then Some (n - 71)%N
  else if ((48 <=? n) && (n <=? 57))%N then Some (n + 4)%N
  else if (n =? 43)%N then Some 62%N
  else if (n =? 47)%N then Some 63%N
  else None.

Definition bytes_of (ns : list N) : option (list byte) :=
  mapM Byte.of_N ns.

Fixpoint b64decode (s : string) : option (list byte) :=
  match s with
  | EmptyString => Some []
  | String c1 (String c2 (String c3 (String c4 rest))) =>
      match digit_value c1, digit_value c2 with
      | Some v1, Some v2 =>
          if Ascii.eqb c3 "=" then
            match Ascii.eqb c4 "=", rest with
            | true, EmptyString => bytes_of [(v1 * 4 + v2 / 16)%N]
            | _, _ => None
            end
          else
            match digit_value c3 with
            | Some v3 =>
                if Ascii.eqb c4 "=" then
                  match rest with
                  | EmptyString =>
                      bytes_of [(v1 * 4 + v2 / 16)%N;
                                ((v2 mod 16) * 16 + v3 / 4)%N]
                  | _ => None
                  end
                else
                  match digit_value c4, b64decode rest with
                  | Some v4, Some bs =>
                      match bytes_of [(v1 * 4 + v2 / 16)%N;
                                      ((v2 mod 16) * 16 + v3 / 4)%N;
                                      ((v3 mod 4) * 64 + v4)%N] with
                      | Some group => Some (group ++ bs)
                      | None => None
                      end
                  | _, _ => None
                  end
            | None => None
            end
      | _, _ => None
      end
  | _ => None
  end.

(** A text made of white space only, the empty text included. *)
Fixpoint all_spaces (s : string) : bool :=
  match s with
  | EmptyString => true
  | String c s' => isspace c && all_spaces s'
  end.

(** A form has a name when one of its inputs holds more than white
    space. *)
Definition named (name_inputs : list Text) : bool :=
  existsb (fun w => negb (all_spaces (text w))) name_inputs.

(** The names that a handler passes on: the texts that hold more than
    white space, as typed. *)
Definition names_of (name_inputs : list Text) : list string :=
  map text (List.filter (fun w => negb (all_spaces (text w))) name_inputs).

(** The stories displayed among the events of a callback, in order. *)
Fixpoint stories (t : list ui_event) : list value :=
  match t with
  | [] => []
  | Displayed (StoryHTML story) :: t' => story :: stories t'
  | _ :: t' => stories t'
  end.

(** The tracebacks shown among the events of a callback, in order. *)
Fixpoint tracebacks (t : list ui_event) : list exn :=
  match t with
  | [] => []
  | Traceback e :: t' => e :: tracebacks t'
  | _ :: t' => tracebacks t'
  end.

(** The forms behind the handlers: the image and the labels of the
    inputs of each. *)
Definition forms (handlers : list (list byte * list Text))
    : list (list byte * list string) :=
  map (fun handler => (handler.1, map description handler.2)) handlers.

(** The actions on the inputs: all but an upload and a click. *)
Definition is_input (a : action) : Prop :=
  match a with
  | NameTyped _ _ _ | GenreSelected _ | LengthSet _ => True
  | ValueChanged _ | ButtonClicked => False
  end.

(** The values that the slider can hold. *)
Definition in_slider_range (length : Z) : Prop :=
  (length_min <= length <= length_max)%Z.

(** ** Fixtures: a generator, mock responses and mock backends *)

Module Fixture.

Definition env : gmap string string := {[ "OPENAI_API_KEY" := "sk-test" ]}.

Definition generator : ImageStoryGenerator :=
  __init__ env {| logger_name := "__main__" |}.

(** A body of the shape [{choices: [{message: {content: c}}]}]. *)
Definition completion (c : value) : value :=
  VDict [("choices", VList [VDict [("message", VDict [("content", c)])]])].

Definition ok (c : value) : outcome :=
  Returns (Response 200 (Some (completion c))).

(** A backend that replays a script, one outcome per request, and raises
    a connection error once the script is exhausted. *)
Definition replay (script : list outcome) (rq : request)
    : outcome * list outcome :=
  match script with
  | o :: script' => (o, script')
  | [] => (Raises (RequestException "connection refused"), [])
  end.

(** A backend that gives every request the same outcome. *)
Definition always (o : outcome) (s : unit) (rq : request) : outcome * unit :=
  (o, tt).

Definition two_people : string :=
  "A tall man in a red jacket" +:+ PyStr.nl +:+ "A woman with short black hair".

Definition blank_line : string :=
  "A tall man" +:+ PyStr.nl +:+ PyStr.nl +:+ "A woman".

Definition jpeg : list byte := [xff; xd8; xff; xe0].

Definition story : string := "Alex crept through the fog...".

(** A backend that gives every request the same outcome and counts the
    requests it has served. *)
Definition counting (o : outcome) (served : nat) (rq : request)
    : outcome * nat :=
  (o, S served).

End Fixture.

(** Fixtures of the front end: an upload, and name inputs with names
    typed into them. *)
Module UiFixture.

Definition upload : list (string * UploadedFile) :=
  [("photo.jpg", {| content := Fixture.jpeg |})].

Definition typed (desc name : string) : Text :=
  {| placeholder := "Enter name for " +:+ desc;
     description := desc;
     text := name |}.

(** The first input is left blank, the second holds a name between
    spaces. *)
Definition second_named : list Text :=
  [typed "A tall man in a red jacket" "   ";
   typed "A woman with short black hair" " Jamie "].

Definition all_blank : list Text :=
  [typed "A tall man in a red jacket" EmptyString;
   typed "A woman with short black hair" (String PyStr.TAB " ")].

Definition one_person : string := "A child with a blue hat".

(** The form made for the two people, once a name between spaces has been
    typed into its second input. *)
Definition second_typed : list Text :=
  [typed "A tall man in a red jacket" EmptyString;
   typed "A woman with short black hair" " Jamie "].

End UiFixture.

(** * Properties *)

(** ** Running computations *)

Section RunFacts.
Context {B : Type} (respond : B -> request -> outcome * B).

(** Running a sequence is running its parts one after the other. *)
Lemma run_io_bind {A C : Type} (m : io A) (f : A -> io C) (s : B) :
  run respond (io_bind m f) s =
    let '(a, s1, t1) := run respond m s in
    let '(c, s2, t2) := run respond (f a) s1 in
    (c, s2, t1 ++ t2).
Proof.
  revert s; induction m as [a | lg lv msg exc k IH | rq k IH]; intros s; simpl.
  - destruct (run respond (f a) s) as [[c s2] t2]; reflexivity.
  - rewrite IH. destruct (run respond k s) as [[a s1] t1].
    destruct (run respond (f a) s1) as [[c s2] t2]; reflexivity.
  - destruct (respond s rq) as [o s0]. rewrite IH.
    destruct (run respond (k o) s0) as [[a s1] t1].
    destruct (run respond (f a) s1) as [[c s2] t2]; reflexivity.
Qed.

(** Running [let* x := m in f x]: an exception of [m] ends the run. *)
Lemma run_bind {A C : Type} (m : py A) (f : A -> py C)
    (self : ImageStoryGenerator) (s : B) :
  run respond (Py.bind m f self) s =
    let '(r, self1, s1, t1) := run respond (m self) s in
    match r with
    | inl e => (inl e, self1, s1, t1 ++ [])
    | inr a =>
        let '(c, s2, t2) := run respond (f a self1) s1 in
        (c, s2, t1 ++ t2)
    end.
Proof.
  unfold Py.bind. rewrite run_io_bind.
  destruct (run respond (m self) s) as [[[[e | a] self1] s1] t1]; reflexivity.
Qed.

Lemma run_logger_info (msg : string) (self : ImageStoryGenerator) (s : B) :
  run respond (Py.logger_info msg self) s =
    (inr tt, self, s, [EvLog (logger self) INFO msg None]).
Proof. reflexivity. Qed.

(** The requests of two traces in a row. *)
Lemma requests_of_app (t1 t2 : list event) :
  requests_of (t1 ++ t2) = requests_of t1 ++ requests_of t2.
Proof.
  induction t1 as [| [lg lv msg exc | rq] t1 IH]; simpl; [done | done |].
  by rewrite IH.
Qed.

(** One call of [process_image]: it logs, posts the vision request once,
    and returns the lines of the content, or logs the exception and
    returns the empty list; the object is the one it started from. *)
Lemma process_image_run (self : ImageStoryGenerator) (image_data : list byte)
    (s : B) :
  run respond (process_image image_data self) s =
    let rq := vision_request self image_data in
    let '(o, s1) := respond s rq in
    let start :=
      [EvLog (logger self) INFO "Processing image attachment" None;
       EvPost rq] in
    match and_then (content_of o) (fun c => call_split c PyStr.LF) with
    | inr descriptions => (inr descriptions, self, s1, start)
    | inl e =>
        (inr [], self, s1,
         start ++ [EvLog (logger self) ERROR "Error processing image: " (Some e)])
    end.
Proof.
  unfold process_image, vision_request, Py.bind, Py.try_except; simpl.
  destruct (respond s _) as [o s1]; simpl.
  destruct o as [e | r]; simpl; [done |].
  unfold raise_for_status, response_json.
  destruct (is_error_status (status_code r)); simpl; [done |].
  destruct (body r) as [result |]; simpl; [| done].
  destruct (message_content result) as [e | content]; simpl; [done |].
  destruct (call_split content PyStr.LF) as [e | ds]; simpl; done.
Qed.

(** [process_image] always returns, leaves the object as it was and posts
    the vision request and nothing else. *)
Lemma process_image_total (self : ImageStoryGenerator) (image_data : list byte)
    (s : B) :
  exists descriptions s1 t1,
    run respond (process_image image_data self) s
      = (inr descriptions, self, s1, t1) /\
    s1 = (respond s (vision_request self image_data)).2 /\
    requests_of t1 = [vision_request self image_data].
Proof.
  rewrite process_image_run; simpl.
  destruct (respond s _) as [o s1]; simpl.
  destruct (and_then _ _) as [e | ds]; eauto 10.
Qed.

Lemma run_eval {A : Type} (r : exn + A) (self : ImageStoryGenerator) (s : B) :
  run respond (Py.eval r self) s = (r, self, s, []).
Proof. reflexivity. Qed.

(** The prompt is built exactly for a length of at most 4300 digits. *)
Lemma story_prompt_rendered (names_list genre : string) (desired_length : Z)
    (image_content : list string) :
  Z.abs desired_length < PyRepr.int_str_limit ->
  story_prompt names_list genre desired_length image_content
    = inr (prompt_for names_list genre desired_length image_content).
Proof.
  intros Hlimit. unfold story_prompt, PyRepr.str_int.
  apply Z.ltb_lt in Hlimit. by rewrite Hlimit.
Qed.

Lemma story_prompt_refused (names_list genre : string) (desired_length : Z)
    (image_content : list string) :
  PyRepr.int_str_limit <= Z.abs desired_length ->
  story_prompt names_list genre desired_length image_content
    = inl int_str_error.
Proof.
  intros Hlimit. unfold story_prompt, PyRepr.str_int.
  apply Z.ltb_ge in Hlimit. by rewrite Hlimit.
Qed.

(** One call of [generate_story_from_image], after its call of
    [process_image]: when the prompt cannot be built it raises; else it
    posts the story request once, and returns the content, or logs the
    exception and returns the error text. *)
Lemma generate_story_run (self : ImageStoryGenerator) (image_data : list byte)
    (people_names : list string) (genre : string) (desired_length : Z)
    (s s1 : B) (image_content : list string) (t1 : list event) :
  run respond (process_image image_data self) s
    = (inr image_content, self, s1, t1) ->
  run respond
    (generate_story_from_image image_data people_names genre desired_length self) s =
    let started :=
      EvLog (logger self) INFO "Generating story from image" None :: t1 in
    match story_prompt (PyStr.join ", " people_names) genre desired_length
            image_content with
    | inl e => (inl e, self, s1, started)
    | inr prompt =>
        let rq := story_request self prompt in
        let '(o, s2) := respond s1 rq in
        let start := started ++ [EvPost rq] in
        match content_of o with
        | inr story => (inr story, self, s2, start)
        | inl e =>
            (inr (VStr story_error), self, s2,
             start ++
             [EvLog (logger self) ERROR "Error generating story: " (Some e)])
        end
    end.
Proof.
  intros Hvision.
  unfold generate_story_from_image.
  rewrite run_bind, run_logger_info, run_bind, Hvision, run_bind, run_eval.
  destruct (story_prompt _ _ _ _) as [e | prompt].
  { cbv zeta. simpl. by rewrite !app_nil_r. }
  unfold story_request, Py.bind, Py.try_except; simpl.
  destruct (respond s1 _) as [o s2]; simpl.
  destruct o as [e | r]; simpl.
  { by rewrite <- ?app_assoc. }
  unfold raise_for_status, response_json.
  destruct (is_error_status (status_code r)); simpl.
  { by rewrite <- ?app_assoc. }
  destruct (body r) as [result |]; simpl.
  2: { by rewrite <- ?app_assoc. }
  destruct (message_content result) as [e | story]; simpl.
  { by rewrite <- ?app_assoc. }
  by rewrite <- ?app_assoc.
Qed.

(** The same for a length of at most 4300 digits: the prompt is built and
    the story request posted. *)
Lemma generate_story_run_rendered (self : ImageStoryGenerator)
    (image_data : list byte) (people_names : list string) (genre : string)
    (desired_length : Z) (s s1 : B) (image_content : list string)
    (t1 : list event) :
  Z.abs desired_length < PyRepr.int_str_limit ->
  run respond (process_image image_data self) s
    = (inr image_content, self, s1, t1) ->
  run respond
    (generate_story_from_image image_data people_names genre desired_length self) s =
    let prompt :=
      prompt_for (PyStr.join ", " people_names) genre desired_length
        image_content in
    let rq := story_request self prompt in
    let '(o, s2) := respond s1 rq in
    let start :=
      EvLog (logger self) INFO "Generating story from image" None
        :: t1 ++ [EvPost rq] in
    match content_of o with
    | inr story => (inr story, self, s2, start)
    | inl e =>
        (inr (VStr story_error), self, s2,
         start ++ [EvLog (logger self) ERROR "Error generating story: " (Some e)])
    end.
Proof.
  intros Hlimit Hvision.
  rewrite (generate_story_run _ _ _ _ _ _ _ _ _ Hvision).
  by rewrite story_prompt_rendered.
Qed.

End RunFacts.

(** ** Strings: splitting, joining and occurrences *)

Section StringFacts.
Import PyStr PyRepr.

Lemma append_cons (c : ascii) (s t : string) :
  String c s +:+ t = String c (s +:+ t).
Proof. reflexivity. Qed.

Lemma append_nil_r (s : string) : s +:+ EmptyString = s.
Proof. induction s as [| c s IH]; [done |]. by rewrite append_cons, IH. Qed.

Lemma append_assoc (s t u : string) : (s +:+ t) +:+ u = s +:+ t +:+ u.
Proof. induction s as [| c s IH]; [done |]. by rewrite !append_cons, IH. Qed.

(** [split] never returns the empty list. *)
Lemma split_not_nil (sep : ascii) (s : string) : split sep s <> [].
Proof.
  destruct s as [| c s]; simpl; [done |].
  destruct (Ascii.eqb c sep); [done |].
  destruct (split sep s); done.
Qed.

(** A text without separator is its own single piece. *)
Lemma split_line (sep : ascii) (s : string) :
  has_char sep s = false -> split sep s = [s].
Proof.
  induction s as [| c s IH]; simpl; [done |].
  intros [Hc Hs]%orb_false_elim. rewrite Hc, IH; done.
Qed.

(** The first separator ends the first piece. *)
Lemma split_app_sep (sep : ascii) (line rest : string) :
  has_char sep line = false ->
  split sep (line +:+ String sep rest) = line :: split sep rest.
Proof.
  induction line as [| c line IH]; simpl.
  - intros _. change (EmptyString +:+ String sep rest) with (String sep rest).
    simpl. by rewrite Ascii.eqb_refl.
  - intros [Hc Hs]%orb_false_elim. rewrite Hc, IH; done.
Qed.

(** Splitting undoes joining lines with line feeds. *)
Lemma split_join (lines : list string) :
  lines <> [] -> Forall is_line lines ->
  split LF (join nl lines) = lines.
Proof.
  induction lines as [| line lines IH]; [done |].
  intros _ Hlines. apply Forall_cons in Hlines as [Hline Hlines].
  destruct lines as [| line' lines].
  - simpl. by apply split_line.
  - change (join nl (line :: line' :: lines))
      with (line +:+ nl +:+ join nl (line' :: lines)).
    change (nl +:+ join nl (line' :: lines))
      with (String LF (join nl (line' :: lines))).
    rewrite split_app_sep by done. by rewrite IH.
Qed.

(** The number of pieces is one more than the number of separators. *)
Lemma split_length (sep : ascii) (s : string) :
  length (split sep s) =
    S (length (filter (fun c => c = sep) (String.list_ascii_of_string s))).
Proof.
  induction s as [| c s IH]; simpl; [done |].
  destruct (Ascii.eqb_spec c sep) as [-> | Hne].
  - rewrite filter_cons_True by done. simpl. by rewrite IH.
  - rewrite filter_cons_False by done. rewrite <- IH.
    pose proof (split_not_nil sep s). destruct (split sep s); done.
Qed.

Lemma substring_refl (t post : string) : substring t (t +:+ post).
Proof. by exists EmptyString, post. Qed.

Lemma substring_app_l (t p s : string) :
  substring t s -> substring t (p +:+ s).
Proof.
  intros (pre & post & ->). exists (p +:+ pre), post.
  by rewrite append_assoc.
Qed.

(** The test [t in s] decides the occurrence of [t] in [s]. *)
Lemma prefix_append (t s : string) :
  String.prefix t s = true <-> exists post, s = t +:+ post.
Proof.
  revert s; induction t as [| a t IH]; intros s.
  - split; [intros _; by exists s |]. intros _. by destruct s.
  - destruct s as [| b s]; simpl.
    + split; [done | intros (post & Hs); discriminate].
    + destruct (ascii_dec a b) as [<- | Hne].
      * rewrite IH. split; intros (post & Hs); exists post.
        -- by rewrite Hs.
        -- rewrite append_cons in Hs. by injection Hs.
      * split; [done |]. intros (post & Hs). rewrite append_cons in Hs.
        injection Hs as Hb _. by destruct Hne.
Qed.

Lemma contains_substring (s t : string) :
  contains s t = true <-> substring t s.
Proof.
  split.
  - induction s as [| c s IH]; cbn [contains].
    + rewrite orb_false_r, prefix_append. intros (post & Hs).
      exists EmptyString, post. exact Hs.
    + intros [Hprefix | Hlater]%orb_true_iff.
      * apply prefix_append in Hprefix as (post & ->).
        by exists EmptyString, post.
      * apply IH in Hlater as (pre & post & ->).
        by exists (String c pre), post.
  - intros (pre & post & ->). induction pre as [| c pre IH].
    + change (EmptyString +:+ t +:+ post) with (t +:+ post).
      assert (String.prefix t (t +:+ post) = true) as Hprefix
        by (apply prefix_append; by exists post).
      destruct (t +:+ post); cbn [contains]; by rewrite Hprefix.
    + rewrite append_cons; cbn [contains]. rewrite IH. apply orb_true_r.
Qed.

Lemma occur_in_order_app_l (ts : list string) (p s : string) :
  occur_in_order ts s -> occur_in_order ts (p +:+ s).
Proof.
  destruct ts as [| t ts]; [done |].
  intros (pre & post & -> & Hrest). exists (p +:+ pre), post.
  by rewrite append_assoc.
Qed.

(** Texts that occur in order occur. *)
Lemma occur_in_order_substring (ts : list string) (s : string) :
  occur_in_order ts s -> Forall (fun t => substring t s) ts.
Proof.
  revert s; induction ts as [| t ts IH]; intros s; [by constructor |].
  intros (pre & post & -> & Hrest). constructor.
  - by exists pre, post.
  - apply IH in Hrest. eapply Forall_impl; [exact Hrest |].
    intros t' Hsub; simpl. rewrite <- append_assoc.
    by apply substring_app_l.
Qed.

(** Joining texts that each hold one of [ts] gives a text in which the
    [ts] occur in order. *)
Lemma occur_in_order_join_map (f : string -> string) (sep : string)
    (ts : list string) (post : string) :
  Forall (fun t => substring t (f t)) ts ->
  occur_in_order ts (join sep (map f ts) +:+ post).
Proof.
  revert post; induction ts as [| t ts IH]; intros post Hsub; [done |].
  apply Forall_cons in Hsub as [(pre & post_t & Ht) Hsub].
  destruct ts as [| t' ts].
  - exists pre, (post_t +:+ post). split; [| done].
    simpl. rewrite Ht. by rewrite !append_assoc.
  - exists pre, (post_t +:+ sep +:+ join sep (map f (t' :: ts)) +:+ post).
    split.
    + change (join sep (map f (t :: t' :: ts)))
        with (f t +:+ sep +:+ join sep (map f (t' :: ts))).
      rewrite Ht. by rewrite !append_assoc.
    + do 2 apply occur_in_order_app_l. by apply IH.
Qed.

Lemma occur_in_order_join (sep : string) (ts : list string) (post : string) :
  occur_in_order ts (join sep ts +:+ post).
Proof.
  rewrite <- (map_id ts) at 2. apply occur_in_order_join_map.
  apply Forall_forall. intros t _. rewrite <- (append_nil_r t) at 2.
  apply substring_refl.
Qed.

(** A text that [repr] does not escape stands between its quotes. *)
Lemma repr_unescaped (s : string) :
  unescaped s -> substring s (PyRepr.repr s).
Proof.
  unfold unescaped, PyRepr.repr. intros ->.
  exists (chr (PyRepr.repr_quote s)), (chr (PyRepr.repr_quote s)). done.
Qed.

(** A plain character other than the quote is its own rendering. *)
Lemma repr_char_plain (quote c : ascii) :
  plain_char c = true -> c <> quote -> repr_char quote c = chr c.
Proof.
  destruct c as [[] [] [] [] [] [] [] []]; try discriminate; intros _ Hne;
    unfold repr_char;
    match goal with
    | |- context [Ascii.eqb ?a quote] =>
        destruct (Ascii.eqb_spec a quote) as [Heq | _];
          [by destruct Hne | reflexivity]
    end.
Qed.

Lemma plain_has_no_quote (s : string) :
  plain s = true -> has_char SQUOTE s = false /\ has_char DQUOTE s = false.
Proof.
  induction s as [| c s IH]; simpl; [done |].
  intros [Hc Hs]%andb_true_iff. destruct (IH Hs) as [-> ->].
  unfold plain_char in Hc.
  destruct (Ascii.eqb c SQUOTE), (Ascii.eqb c DQUOTE); simpl in *;
    rewrite ?andb_false_r in Hc; done.
Qed.

(** Plain texts are not escaped: they stand verbatim in a rendering. *)
Lemma plain_unescaped (s : string) : plain s = true -> unescaped s.
Proof.
  intros Hplain. unfold unescaped, repr_quote.
  destruct (plain_has_no_quote s Hplain) as [Hsquote _].
  rewrite Hsquote; simpl.
  induction s as [| c s IH]; [done |].
  simpl in Hplain, Hsquote.
  apply andb_true_iff in Hplain as [Hc Hs].
  apply orb_false_elim in Hsquote as [Hne Hsquote].
  simpl. rewrite IH by done.
  rewrite repr_char_plain; [done | done |].
  intros ->. by rewrite Ascii.eqb_refl in Hne.
Qed.

(** The descriptions of the scenario are plain; an apostrophe alone changes
    the quote and is not escaped; a backslash is escaped. *)
Lemma unescaped_examples :
  plain "A tall man in a red jacket" = true /\
  plain "A woman with short black hair" = true /\
  unescaped "A man's hat" /\
  ~ unescaped "a\b".
Proof. repeat split; try reflexivity. intros H; vm_compute in H; discriminate. Qed.

(** The descriptions that [repr] does not escape occur verbatim and in
    order in the rendering of their list. *)
Lemma occur_in_order_str_list (l : list string) (post : string) :
  Forall unescaped l -> occur_in_order l (PyRepr.str_list l +:+ post).
Proof.
  intros Hl. unfold PyRepr.str_list. rewrite !append_assoc.
  apply occur_in_order_app_l, occur_in_order_join_map.
  eapply Forall_impl; [exact Hl |]. apply repr_unescaped.
Qed.

End StringFacts.

(** ** The rendering of a list of strings can be read back *)

Section Rendering.
Import PyStr PyRepr.

Lemma string_length_append (s t : string) :
  String.length (s +:+ t) = (String.length s + String.length t)%nat.
Proof. induction s as [| c s IH]; simpl; [done |]. by rewrite IH. Qed.

(** Reading the escape of one character gives the character back. *)
Lemma read_chars_repr_char (quote c : ascii) (rest : string) :
  quote = SQUOTE \/ quote = DQUOTE ->
  read_chars quote (repr_char quote c +:+ rest)
    = read_more c (read_chars quote rest).
Proof.
  intros [-> | ->];
    destruct c as [[] [] [] [] [] [] [] []]; reflexivity.
Qed.

Lemma read_chars_repr_chars (quote : ascii) (s rest : string) :
  quote = SQUOTE \/ quote = DQUOTE ->
  read_chars quote (repr_chars quote s +:+ String quote rest) = Some (s, rest).
Proof.
  intros Hquote. induction s as [| c s IH].
  - destruct Hquote as [-> | ->]; reflexivity.
  - simpl. rewrite append_assoc, read_chars_repr_char by done.
    by rewrite IH.
Qed.

Lemma repr_quote_cases (s : string) :
  repr_quote s = SQUOTE \/ repr_quote s = DQUOTE.
Proof. unfold repr_quote. destruct (_ && _); auto. Qed.

(** Reading a literal gives the text back, and what follows the literal. *)
Lemma read_repr_repr (s rest : string) :
  read_repr (repr s +:+ rest) = Some (s, rest).
Proof.
  unfold repr. rewrite append_cons, append_assoc.
  change (chr (repr_quote s) +:+ rest) with (String (repr_quote s) rest).
  unfold read_repr.
  pose proof (repr_quote_cases s) as Hquote.
  rewrite read_chars_repr_chars by done.
  by destruct Hquote as [-> | ->].
Qed.

Lemma read_items_step (fuel : nat) (item s : string) :
  read_items (S fuel) (repr item +:+ s) =
    match s with
    | String "]" EmptyString => Some [item]
    | String "," (String " " rest) =>
        match read_items fuel rest with
        | Some items => Some (item :: items)
        | None => None
        end
    | _ => None
    end.
Proof.
  change (read_items (S fuel) (repr item +:+ s))
    with (match read_repr (repr item +:+ s) with
          | Some (item, String "]" EmptyString) => Some [item]
          | Some (item, String "," (String " " rest)) =>
              match read_items fuel rest with
              | Some items => Some (item :: items)
              | None => None
              end
          | _ => None
          end).
  by rewrite read_repr_repr.
Qed.

Lemma read_items_join (l : list string) (fuel : nat) :
  l <> [] -> (length l <= fuel)%nat ->
  read_items fuel (join ", " (map repr l) +:+ "]") = Some l.
Proof.
  revert fuel; induction l as [| item l IH]; intros fuel Hne Hfuel; [done |].
  destruct fuel as [| fuel]; simpl in Hfuel; [lia |].
  destruct l as [| item' l].
  - change (join ", " (map repr [item])) with (repr item).
    by rewrite read_items_step.
  - change (join ", " (map repr (item :: item' :: l)))
      with (repr item +:+ ", " +:+ join ", " (map repr (item' :: l))).
    rewrite !append_assoc, read_items_step.
    change (", " +:+ join ", " (map repr (item' :: l)) +:+ "]")
      with (String "," (String " " (join ", " (map repr (item' :: l)) +:+ "]"))).
    cbv beta iota.
    rewrite IH; [done | done | simpl in *; lia].
Qed.

Lemma repr_length (s : string) : (1 <= String.length (repr s))%nat.
Proof. unfold repr. simpl. lia. Qed.

Lemma join_repr_length (l : list string) (post : string) :
  (length l <= String.length (join ", " (map repr l) +:+ post))%nat.
Proof.
  rewrite string_length_append.
  enough (length l <= String.length (join ", " (map repr l)))%nat by lia.
  induction l as [| item l IH]; [simpl; lia |].
  pose proof (repr_length item) as Hitem.
  destruct l as [| item' l].
  - change (join ", " (map repr [item])) with (repr item). simpl. lia.
  - change (join ", " (map repr (item :: item' :: l)))
      with (repr item +:+ ", " +:+ join ", " (map repr (item' :: l))).
    rewrite !string_length_append.
    change (length (item :: item' :: l)) with (S (length (item' :: l))).
    lia.
Qed.

(** The rendering of a list of strings determines the list. *)
Lemma read_str_list_str_list (l : list string) :
  read_str_list (str_list l) = Some l.
Proof.
  destruct l as [| item l]; [reflexivity |].
  unfold str_list.
  change ("[" +:+ ?x) with (String "[" x).
  pose proof (join_repr_length (item :: l) "]") as Hlen.
  pose proof (read_items_join (item :: l)
    (String.length (join ", " (map repr (item :: l)) +:+ "]"))) as Hread.
  unfold read_str_list.
  destruct (join ", " (map repr (item :: l)) +:+ "]") as [| c rest] eqn:Hjoin.
  { simpl in Hlen. lia. }
  destruct (Ascii.eqb_spec c "]") as [-> | Hc].
  - destruct rest as [| c' rest]; [| by apply Hread].
    exfalso. revert Hjoin. destruct l as [| item' l]; simpl.
    + unfold repr. rewrite append_cons. intros [= Hq _].
      by destruct (repr_quote_cases item) as [Hquote | Hquote];
        rewrite Hquote in Hq.
    + unfold repr at 1. rewrite !append_cons. intros [= Hq _].
      by destruct (repr_quote_cases item) as [Hquote | Hquote];
        rewrite Hquote in Hq.
  - destruct c as [[] [] [] [] [] [] [] []]; try (by apply Hread).
    done.
Qed.

Lemma str_list_inj (l l' : list string) :
  str_list l = str_list l' -> l = l'.
Proof.
  intros Heq. apply (f_equal read_str_list) in Heq.
  rewrite !read_str_list_str_list in Heq. by injection Heq.
Qed.

End Rendering.

(** ** Outcomes of a request *)

Section Outcomes.

(** A response with a success status and a JSON body gives the content at
    [choices[0].message.content]. *)
Lemma content_of_success (r : response) (result content : value) :
  is_error_status (status_code r) = false ->
  body r = Some result ->
  message_content result = inr content ->
  content_of (Returns r) = inr content.
Proof.
  intros Hstatus Hbody Hcontent.
  unfold content_of, raise_for_status, response_json.
  by rewrite Hstatus, Hbody.
Qed.

(** [raise_for_status] raises for the statuses 400 to 599 and for no
    other: a status such as 204 or 304 passes. *)
Lemma raise_for_status_passes (r : response) :
  raise_for_status r = inr tt <-> ~ (400 <= status_code r < 600).
Proof.
  unfold raise_for_status, is_error_status.
  destruct (Z.leb_spec 400 (status_code r)) as [Hlow | Hlow],
           (Z.ltb_spec (status_code r) 600) as [Hhigh | Hhigh];
    simpl; split; intros Hpass; try done; lia.
Qed.

(** Every failing behaviour of the backend makes the [try] block of
    [process_image] raise. *)
Lemma vision_failure_raises (o : outcome) :
  vision_failure o ->
  exists e, and_then (content_of o) (fun c => call_split c PyStr.LF) = inl e.
Proof.
  destruct o as [e | r]; simpl; [by eauto |].
  unfold raise_for_status, response_json.
  intros [Hstatus | [Hbody | (result & Hbody & Hcontent)]].
  - rewrite Hstatus; simpl; eauto.
  - destruct (is_error_status (status_code r)); simpl; [by eauto |].
    rewrite Hbody; simpl; eauto.
  - destruct (is_error_status (status_code r)); simpl; [by eauto |].
    rewrite Hbody; simpl.
    destruct (message_content result) as [e | c] eqn:Hc; simpl; [by eauto |].
    destruct c as [| | | | text | |]; simpl; eauto. by destruct (Hcontent text).
Qed.

(** When the [try] block of [process_image] raises, the backend failed. *)
Lemma vision_raises_failure (o : outcome) (e : exn) :
  and_then (content_of o) (fun c => call_split c PyStr.LF) = inl e ->
  vision_failure o.
Proof.
  destruct o as [e' | r]; simpl; [done |].
  unfold raise_for_status, response_json.
  destruct (is_error_status (status_code r)); simpl; [by left |].
  destruct (body r) as [result |]; simpl; [| by right; left].
  intros Hraise. right; right. exists result. split; [done |].
  intros content Hcontent. by rewrite Hcontent in Hraise.
Qed.

(** Every failing behaviour of the backend makes the [try] block of
    [generate_story_from_image] raise. *)
Lemma story_failure_raises (o : outcome) :
  story_failure o -> exists e, content_of o = inl e.
Proof.
  destruct o as [e | r]; simpl; [by eauto |].
  unfold raise_for_status, response_json.
  intros [Hstatus | [Hbody | (result & e & Hbody & Hcontent)]].
  - rewrite Hstatus; simpl; eauto.
  - destruct (is_error_status (status_code r)); simpl; [by eauto |].
    rewrite Hbody; simpl; eauto.
  - destruct (is_error_status (status_code r)); simpl; [by eauto |].
    rewrite Hbody; simpl. eauto.
Qed.

End Outcomes.

(** ** The vision stage *)

Section VisionStage.
Context {B : Type} (respond : B -> request -> outcome * B).

(** [process_image] returns the empty list exactly when the backend
    failed: the split of a content is never empty. *)
Lemma process_image_empty_iff_failure (self : ImageStoryGenerator)
    (image_data : list byte) (s : B) :
  returned (run respond (process_image image_data self) s) = inr [] <->
  vision_failure (respond s (vision_request self image_data)).1.
Proof.
  rewrite process_image_run; simpl.
  destruct (respond s _) as [o s1]; simpl.
  destruct (and_then _ _) as [e | ds] eqn:Hc; simpl.
  - split; [intros _ | done]. by eapply vision_raises_failure.
  - split.
    + intros [= ->]. destruct (content_of o) as [e | c]; simpl in Hc; [done |].
      destruct c as [| | | | text | |]; simpl in Hc; try done.
      injection Hc as Hc. by destruct (split_not_nil PyStr.LF text).
    + intros Hfail. apply vision_failure_raises in Hfail as [e He].
      congruence.
Qed.

End VisionStage.

(** ** Parsing of the vision response *)

(** C1, as stated, fails: for a content with a blank line between two lines,
    [process_image] returns three entries, the empty one included, and not
    the two non-empty lines. *)
Lemma process_image_keeps_blank_line :
  let content := Fixture.blank_line in
  let result :=
    returned (run (Fixture.always (Fixture.ok (VStr content)))
                (process_image Fixture.jpeg Fixture.generator) tt) in
  result = inr ["A tall man"; EmptyString; "A woman"] /\
  spec_nonempty_lines content = ["A tall man"; "A woman"] /\
  result <> inr (spec_nonempty_lines content).
Proof.
  assert (returned (run (Fixture.always (Fixture.ok (VStr Fixture.blank_line)))
                      (process_image Fixture.jpeg Fixture.generator) tt)
          = inr ["A tall man"; EmptyString; "A woman"]) as Hresult
    by (vm_compute; reflexivity).
  assert (spec_nonempty_lines Fixture.blank_line = ["A tall man"; "A woman"])
    as Hspec by (vm_compute; reflexivity).
  cbv zeta. rewrite Hresult, Hspec. repeat split; discriminate.
Qed.

(** C1 (amended): for every successful response whose body holds a string
    at [choices[0].message.content], [process_image] returns the split of
    that string at its line feeds: every piece in order, the empty ones
    too, one more than there are line feeds, so that the non-empty lines of
    the content are the non-empty entries of the result; for a content of N
    lines joined by single line feeds it returns exactly these N lines. *)
Theorem process_image_returns_split_content {B : Type}
    (respond : B -> request -> outcome * B) (s s1 : B)
    (self : ImageStoryGenerator) (image_data : list byte)
    (r : response) (result : value) (content : string) :
  respond s (vision_request self image_data) = (Returns r, s1) ->
  is_error_status (status_code r) = false ->
  body r = Some result ->
  message_content result = inr (VStr content) ->
  let descriptions := PyStr.split PyStr.LF content in
  returned (run respond (process_image image_data self) s) = inr descriptions /\
  length descriptions =
    S (length (filter (fun c => c = PyStr.LF) (String.list_ascii_of_string content))) /\
  filter (fun line => line <> EmptyString) descriptions
    = spec_nonempty_lines content /\
  forall lines : list string,
    lines <> [] -> Forall is_line lines -> content = PyStr.join PyStr.nl lines ->
    descriptions = lines /\ length descriptions = length lines.
Proof.
  intros Hrespond Hstatus Hbody Hcontent descriptions.
  split; [| split; [| split]].
  - rewrite process_image_run; simpl. rewrite Hrespond.
    by rewrite (content_of_success r result (VStr content)).
  - apply split_length.
  - reflexivity.
  - intros lines Hne Hlines ->. subst descriptions.
    by rewrite split_join.
Qed.

(** The scenario of the two people: two lines, two descriptions. *)
Lemma process_image_returns_split_content_witness :
  let respond := Fixture.always (Fixture.ok (VStr Fixture.two_people)) in
  let result := Fixture.completion (VStr Fixture.two_people) in
  let r := Response 200 (Some result) in
  respond tt (vision_request Fixture.generator Fixture.jpeg) = (Returns r, tt) /\
  is_error_status (status_code r) = false /\
  body r = Some result /\
  message_content result = inr (VStr Fixture.two_people) /\
  returned (run respond (process_image Fixture.jpeg Fixture.generator) tt)
    = inr ["A tall man in a red jacket"; "A woman with short black hair"].
Proof.
  cbv zeta. do 4 (split; [reflexivity |]).
  exact (proj1 (process_image_returns_split_content
    (Fixture.always (Fixture.ok (VStr Fixture.two_people))) tt tt
    Fixture.generator Fixture.jpeg
    (Response 200 (Some (Fixture.completion (VStr Fixture.two_people))))
    (Fixture.completion (VStr Fixture.two_people)) Fixture.two_people
    eq_refl eq_refl eq_refl eq_refl)).
Defined.

(** ** Failures of the vision stage *)

(** C2: whatever the image payload, the empty one included, when the
    backend fails (the call raises, the status is an error, the body is not
    JSON or lacks a string at [choices[0].message.content]),
    [process_image] does not raise: it returns the empty list. *)
Theorem process_image_failure_returns_empty {B : Type}
    (respond : B -> request -> outcome * B) (s : B)
    (self : ImageStoryGenerator) (image_data : list byte) :
  vision_failure (respond s (vision_request self image_data)).1 ->
  returned (run respond (process_image image_data self) s) = inr [].
Proof.
  intros Hfail. rewrite process_image_run; simpl.
  destruct (respond s _) as [o s1]; simpl in *.
  by apply vision_failure_raises in Hfail as [e ->].
Qed.

(** The empty payload, rejected by the backend with status 400. *)
Lemma process_image_failure_returns_empty_witness :
  let respond := Fixture.always (Returns (Response 400 None)) in
  vision_failure (respond tt (vision_request Fixture.generator [])).1 /\
  returned (run respond (process_image [] Fixture.generator) tt) = inr [].
Proof.
  cbv zeta.
  assert (vision_failure
            (Fixture.always (Returns (Response 400 None)) tt
               (vision_request Fixture.generator [])).1) as Hfail
    by (left; reflexivity).
  split; [exact Hfail |].
  exact (process_image_failure_returns_empty
           (Fixture.always (Returns (Response 400 None))) tt
           Fixture.generator [] Hfail).
Defined.


(** ** The story stage *)

Section StoryStage.
Context {B : Type} (respond : B -> request -> outcome * B).

(** [generate_story_from_image] always ends, by returning or by raising,
    and leaves the object as it was. *)
Lemma generate_story_total (self : ImageStoryGenerator) (image_data : list byte)
    (people_names : list string) (genre : string) (desired_length : Z) (s : B) :
  exists r s2 t,
    run respond
      (generate_story_from_image image_data people_names genre desired_length self) s
      = (r, self, s2, t).
Proof.
  destruct (process_image_total respond self image_data s)
    as (ds & s1 & t1 & Hvision & _ & _).
  rewrite (generate_story_run respond _ _ _ _ _ _ _ _ _ Hvision); cbv zeta.
  destruct (story_prompt _ _ _ _) as [e | prompt]; [by eauto |].
  destruct (respond s1 _) as [o s2].
  destruct (content_of o); eauto.
Qed.

(** For a length of at most 4300 digits it returns. *)
Lemma generate_story_returns (self : ImageStoryGenerator)
    (image_data : list byte) (people_names : list string) (genre : string)
    (desired_length : Z) (s : B) :
  Z.abs desired_length < PyRepr.int_str_limit ->
  exists story s2 t,
    run respond
      (generate_story_from_image image_data people_names genre desired_length self) s
      = (inr story, self, s2, t).
Proof.
  intros Hlimit.
  destruct (process_image_total respond self image_data s)
    as (ds & s1 & t1 & Hvision & _ & _).
  rewrite (generate_story_run_rendered respond _ _ _ _ _ _ _ _ _ Hlimit Hvision).
  cbv zeta. destruct (respond s1 _) as [o s2].
  destruct (content_of o); eauto.
Qed.

(** The requests of one call for such a length: the vision request, then
    the story request with the prompt built from what the vision stage
    returned. *)
Lemma generate_story_requests (self : ImageStoryGenerator)
    (image_data : list byte) (people_names : list string) (genre : string)
    (desired_length : Z) (s s1 : B) (image_content : list string)
    (t1 : list event) :
  Z.abs desired_length < PyRepr.int_str_limit ->
  run respond (process_image image_data self) s
    = (inr image_content, self, s1, t1) ->
  requests_of (trace (run respond
    (generate_story_from_image image_data people_names genre desired_length self) s))
  = [vision_request self image_data;
     story_request self
       (prompt_for (PyStr.join ", " people_names) genre desired_length
          image_content)].
Proof.
  intros Hlimit Hvision.
  destruct (process_image_total respond self image_data s)
    as (ds & s1' & t1' & Hvision' & _ & Hrequests).
  rewrite Hvision in Hvision'. injection Hvision' as <- <- <-.
  rewrite (generate_story_run_rendered respond _ _ _ _ _ _ _ _ _ Hlimit Hvision).
  cbv zeta. destruct (respond s1 _) as [o s2].
  destruct (content_of o); unfold trace; simpl;
    rewrite ?requests_of_app, Hrequests; reflexivity.
Qed.

(** The requests of one call for any length: the vision request, and one
    story request unless the prompt could not be built. *)
Lemma generate_story_requests_any (self : ImageStoryGenerator)
    (image_data : list byte) (people_names : list string) (genre : string)
    (desired_length : Z) (s : B) :
  exists later : list request,
    requests_of (trace (run respond
      (generate_story_from_image image_data people_names genre desired_length
         self) s))
    = vision_request self image_data :: later /\
    (later = [] \/ exists prompt, later = [story_request self prompt]).
Proof.
  destruct (process_image_total respond self image_data s)
    as (ds & s1 & t1 & Hvision & _ & Hrequests).
  rewrite (generate_story_run respond _ _ _ _ _ _ _ _ _ Hvision); cbv zeta.
  destruct (story_prompt _ _ _ _) as [e | prompt].
  - exists []. split; [| by left]. unfold trace; simpl. by rewrite Hrequests.
  - exists [story_request self prompt]. split; [| by right; exists prompt].
    destruct (respond s1 _) as [o s2].
    destruct (content_of o); unfold trace; simpl;
      rewrite ?requests_of_app, Hrequests; reflexivity.
Qed.

(** A length that [str] refuses: the vision request is the only one. *)
Lemma generate_story_requests_refused (self : ImageStoryGenerator)
    (image_data : list byte) (people_names : list string) (genre : string)
    (desired_length : Z) (s : B) :
  PyRepr.int_str_limit <= Z.abs desired_length ->
  requests_of (trace (run respond
    (generate_story_from_image image_data people_names genre desired_length
       self) s))
  = [vision_request self image_data].
Proof.
  intros Hlimit.
  destruct (process_image_total respond self image_data s)
    as (ds & s1 & t1 & Hvision & _ & Hrequests).
  rewrite (generate_story_run respond _ _ _ _ _ _ _ _ _ Hvision); cbv zeta.
  rewrite (story_prompt_refused _ _ _ _ Hlimit).
  unfold trace; simpl. by rewrite Hrequests.
Qed.

(** The content of the message of a story request is its prompt. *)
Lemma story_request_content (self : ImageStoryGenerator) (prompt : string) :
  and_then (getitem_key (json (story_request self prompt)) "messages")
    (fun messages => and_then (getitem_index messages 0)
       (fun message => getitem_key message "content"))
  = inr (VStr prompt).
Proof. reflexivity. Qed.

(** A response with a success status returns its content as it is, string
    or not: the story stage does not look at the type of the content. *)
Lemma generate_story_returns_content (self : ImageStoryGenerator)
    (image_data : list byte) (people_names : list string) (genre : string)
    (desired_length : Z) (s s1 s2 : B) (image_content : list string)
    (t1 : list event) (r : response) (result content : value) :
  Z.abs desired_length < PyRepr.int_str_limit ->
  run respond (process_image image_data self) s
    = (inr image_content, self, s1, t1) ->
  respond s1
    (story_request self
       (prompt_for (PyStr.join ", " people_names) genre desired_length
          image_content))
    = (Returns r, s2) ->
  is_error_status (status_code r) = false ->
  body r = Some result ->
  message_content result = inr content ->
  returned (run respond
    (generate_story_from_image image_data people_names genre desired_length self) s)
  = inr content.
Proof.
  intros Hlimit Hvision Hrespond Hstatus Hbody Hcontent.
  rewrite (generate_story_run_rendered respond _ _ _ _ _ _ _ _ _ Hlimit Hvision).
  cbv zeta. rewrite Hrespond.
  by rewrite (content_of_success r result content).
Qed.

End StoryStage.

(** A story response whose content is [null] makes
    [generate_story_from_image] return [None], not the error text. *)
Lemma generate_story_returns_null_content :
  returned (run Fixture.replay
    (generate_story_from_image Fixture.jpeg ["Alex"] "drama" 100 Fixture.generator)
    [Fixture.ok (VStr Fixture.two_people); Fixture.ok VNone])
  = inr VNone.
Proof. vm_compute. reflexivity. Qed.

(** C3, as stated, fails twice. The error text is not distinct from every
    story that a successful response can carry: a response whose content is
    that very text and a refused story request give the same value. And
    not every length is safe: with a length of 4301 decimal digits, one
    followed by 4300 zeros, the method raises the [ValueError] of [str]
    before its [try], whatever the backend would have done. *)
Lemma generate_story_error_text_is_not_distinct :
  let vision := Fixture.ok (VStr Fixture.two_people) in
  let call desired_length script :=
    returned (run Fixture.replay
      (generate_story_from_image Fixture.jpeg ["Alex"] "drama" desired_length
         Fixture.generator) script) in
  call 100 [vision; Fixture.ok (VStr "Error generating story.")]
    = inr (VStr "Error generating story.") /\
  call 100 [vision; Returns (Response 503 None)]
    = inr (VStr "Error generating story.") /\
  call 100 [vision; Fixture.ok (VStr "Error generating story.")]
    = call 100 [vision; Returns (Response 503 None)] /\
  call (10 ^ 4300) [vision; Returns (Response 503 None)]
    = inl int_str_error /\
  call (10 ^ 4300) [vision; Returns (Response 503 None)]
    <> inr (VStr "Error generating story.").
Proof.
  cbv zeta.
  assert (returned (run Fixture.replay
            (generate_story_from_image Fixture.jpeg ["Alex"] "drama" (10 ^ 4300)
               Fixture.generator)
            [Fixture.ok (VStr Fixture.two_people); Returns (Response 503 None)])
          = inl int_str_error) as Hraises by (vm_compute; reflexivity).
  split; [vm_compute; reflexivity |].
  split; [vm_compute; reflexivity |].
  split; [vm_compute; reflexivity |].
  split; [exact Hraises |]. rewrite Hraises. discriminate.
Qed.

(** C3 (amended): for all names, every genre and every length of at most
    4300 decimal digits, when the backend fails on the story request (the
    call raises, the status is an error, the body is not JSON or lacks the
    path [choices[0].message.content]), [generate_story_from_image] does
    not raise: it returns the fixed text of its [except] branch. A
    successful response returns its content, so that the returned value is
    that text exactly when the content is: the text is told apart from a
    story only when the story differs from it. *)
Theorem generate_story_failure_returns_error_text {B : Type}
    (respond : B -> request -> outcome * B) (s s1 : B)
    (self : ImageStoryGenerator) (image_data : list byte)
    (people_names : list string) (genre : string) (desired_length : Z)
    (image_content : list string) (t1 : list event) :
  Z.abs desired_length < PyRepr.int_str_limit ->
  run respond (process_image image_data self) s
    = (inr image_content, self, s1, t1) ->
  let prompt :=
    prompt_for (PyStr.join ", " people_names) genre desired_length
      image_content in
  let o := (respond s1 (story_request self prompt)).1 in
  let result :=
    returned (run respond
      (generate_story_from_image image_data people_names genre desired_length
         self) s) in
  (story_failure o -> result = inr (VStr "Error generating story.")) /\
  (forall (r : response) (body_value story : value),
     o = Returns r ->
     is_error_status (status_code r) = false ->
     body r = Some body_value ->
     message_content body_value = inr story ->
     result = inr story /\
     (result = inr (VStr "Error generating story.") <->
      story = VStr "Error generating story.")).
Proof.
  intros Hlimit Hvision prompt o result. subst result o prompt.
  rewrite (generate_story_run_rendered respond _ _ _ _ _ _ _ _ _ Hlimit Hvision).
  cbv zeta. destruct (respond s1 _) as [o s2]; simpl. split.
  - intros Hfail. by apply story_failure_raises in Hfail as [e ->].
  - intros r body_value story -> Hstatus Hbody Hcontent.
    rewrite (content_of_success r body_value story) by done.
    split; [reflexivity |]. split; [by intros [= ->] | by intros ->].
Qed.

(** The story request times out after a successful vision stage; no name
    and an empty genre are given. *)
Lemma generate_story_failure_returns_error_text_witness :
  let script :=
    [Fixture.ok (VStr Fixture.two_people); Raises (RequestException "timed out")] in
  let first :=
    run Fixture.replay (process_image Fixture.jpeg Fixture.generator) script in
  let image_content :=
    ["A tall man in a red jacket"; "A woman with short black hair"] in
  Z.abs 0 < PyRepr.int_str_limit /\
  first = (inr image_content, Fixture.generator, backend_after first, trace first) /\
  story_failure
    (Fixture.replay (backend_after first)
       (story_request Fixture.generator
          (prompt_for (PyStr.join ", " []) EmptyString 0 image_content))).1 /\
  returned (run Fixture.replay
    (generate_story_from_image Fixture.jpeg [] EmptyString 0 Fixture.generator)
    script)
  = inr (VStr "Error generating story.").
Proof.
  cbv zeta.
  set (script :=
    [Fixture.ok (VStr Fixture.two_people); Raises (RequestException "timed out")]).
  set (first :=
    run Fixture.replay (process_image Fixture.jpeg Fixture.generator) script).
  assert (Z.abs 0 < PyRepr.int_str_limit) as Hlimit by (vm_compute; reflexivity).
  assert (first =
    (inr ["A tall man in a red jacket"; "A woman with short black hair"],
     Fixture.generator, backend_after first, trace first)) as Hvision
    by reflexivity.
  assert (story_failure
    (Fixture.replay (backend_after first)
       (story_request Fixture.generator
          (prompt_for (PyStr.join ", " []) EmptyString 0
             ["A tall man in a red jacket"; "A woman with short black hair"]))).1)
    as Hfail by exact I.
  split; [exact Hlimit |]. split; [exact Hvision |]. split; [exact Hfail |].
  exact (proj1 (generate_story_failure_returns_error_text Fixture.replay script
           (backend_after first) Fixture.generator Fixture.jpeg [] EmptyString 0
           ["A tall man in a red jacket"; "A woman with short black hair"]
           (trace first) Hlimit Hvision) Hfail).
Defined.

(** C6: on a successful story response, [generate_story_from_image] returns
    the message content of the first element of [choices] as it is; the
    other elements of [choices] play no part. The story request is posted,
    and so answered, for a length of at most 4300 decimal digits. *)
Theorem generate_story_returns_first_choice_content {B : Type}
    (respond : B -> request -> outcome * B) (s s1 s2 : B)
    (self : ImageStoryGenerator) (image_data : list byte)
    (people_names : list string) (genre : string) (desired_length : Z)
    (image_content : list string) (t1 : list event)
    (r : response) (result first message : value) (others : list value)
    (story : string) :
  Z.abs desired_length < PyRepr.int_str_limit ->
  run respond (process_image image_data self) s
    = (inr image_content, self, s1, t1) ->
  respond s1
    (story_request self
       (prompt_for (PyStr.join ", " people_names) genre desired_length
          image_content))
    = (Returns r, s2) ->
  is_error_status (status_code r) = false ->
  body r = Some result ->
  getitem_key result "choices" = inr (VList (first :: others)) ->
  getitem_key first "message" = inr message ->
  getitem_key message "content" = inr (VStr story) ->
  returned (run respond
    (generate_story_from_image image_data people_names genre desired_length self) s)
  = inr (VStr story).
Proof.
  intros Hlimit Hvision Hrespond Hstatus Hbody Hchoices Hmessage Hcontent.
  rewrite (generate_story_run_rendered respond _ _ _ _ _ _ _ _ _ Hlimit Hvision).
  cbv zeta. rewrite Hrespond.
  rewrite (content_of_success r result (VStr story)); [done .. |].
  unfold message_content. rewrite Hchoices; simpl.
  rewrite Hmessage; simpl. exact Hcontent.
Qed.

(** The scenario of Alex and Jamie, with a second choice in the response. *)
Lemma generate_story_returns_first_choice_content_witness :
  let message := VDict [("content", VStr Fixture.story)] in
  let first := VDict [("message", message)] in
  let others := [VDict [("message", VDict [("content", VStr "Another story")])]] in
  let result := VDict [("choices", VList (first :: others))] in
  let r := Response 200 (Some result) in
  let script := [Fixture.ok (VStr Fixture.two_people); Returns r] in
  let vision :=
    run Fixture.replay (process_image Fixture.jpeg Fixture.generator) script in
  let image_content :=
    ["A tall man in a red jacket"; "A woman with short black hair"] in
  Z.abs 150 < PyRepr.int_str_limit /\
  vision = (inr image_content, Fixture.generator, [Returns r], trace vision) /\
  Fixture.replay [Returns r]
    (story_request Fixture.generator
       (prompt_for (PyStr.join ", " ["Alex"; "Jamie"]) "mystery" 150
          image_content))
    = (Returns r, []) /\
  is_error_status (status_code r) = false /\
  body r = Some result /\
  getitem_key result "choices" = inr (VList (first :: others)) /\
  getitem_key first "message" = inr message /\
  getitem_key message "content" = inr (VStr Fixture.story) /\
  returned (run Fixture.replay
    (generate_story_from_image Fixture.jpeg ["Alex"; "Jamie"] "mystery" 150
       Fixture.generator) script)
  = inr (VStr "Alex crept through the fog...").
Proof.
  cbv zeta.
  set (message := VDict [("content", VStr Fixture.story)]).
  set (first := VDict [("message", message)]).
  set (others := [VDict [("message", VDict [("content", VStr "Another story")])]]).
  set (result := VDict [("choices", VList (first :: others))]).
  set (r := Response 200 (Some result)).
  set (script := [Fixture.ok (VStr Fixture.two_people); Returns r]).
  set (vision :=
    run Fixture.replay (process_image Fixture.jpeg Fixture.generator) script).
  set (image_content :=
    ["A tall man in a red jacket"; "A woman with short black hair"]).
  assert (Z.abs 150 < PyRepr.int_str_limit) as Hlimit
    by (vm_compute; reflexivity).
  assert (vision = (inr image_content, Fixture.generator, [Returns r], trace vision))
    as Hvision by reflexivity.
  split; [exact Hlimit |].
  do 7 (split; [reflexivity |]).
  exact (generate_story_returns_first_choice_content Fixture.replay script
           [Returns r] [] Fixture.generator Fixture.jpeg ["Alex"; "Jamie"]
           "mystery" 150 image_content (trace vision) r result first message
           others Fixture.story
           Hlimit Hvision eq_refl eq_refl eq_refl eq_refl eq_refl eq_refl).
Defined.

(** ** The prompt of the story request *)

(** C4: for every non-empty list of names, every genre and every length,
    the prompt of the story request that [generate_story_from_image] posts
    after the vision request holds the names in the order given, each of
    them verbatim, the genre, the length in decimal and the rendering [str]
    of the list that the vision stage returned; that rendering can be read
    back into the very descriptions, and the descriptions that [repr] does
    not escape stand verbatim in the prompt, in order. The story request is
    posted for every length that [str] renders, one of at most 4300 decimal
    digits. *)
Theorem story_request_prompt_embeds_inputs {B : Type}
    (respond : B -> request -> outcome * B) (s : B)
    (self : ImageStoryGenerator) (image_data : list byte)
    (people_names : list string) (genre : string) (desired_length : Z) :
  people_names <> [] ->
  let requests :=
    requests_of (trace (run respond
      (generate_story_from_image image_data people_names genre desired_length
         self) s)) in
  exists image_content : list string,
    returned (run respond (process_image image_data self) s)
      = inr image_content /\
    read_str_list (PyRepr.str_list image_content) = Some image_content /\
    (Z.abs desired_length < PyRepr.int_str_limit ->
     exists prompt : string,
       requests = [vision_request self image_data; story_request self prompt]) /\
    forall prompt : string,
      requests = [vision_request self image_data; story_request self prompt] ->
      and_then (getitem_key (json (story_request self prompt)) "messages")
        (fun messages => and_then (getitem_index messages 0)
           (fun message => getitem_key message "content"))
        = inr (VStr prompt) /\
      PyStr.occur_in_order people_names prompt /\
      Forall (fun name => PyStr.substring name prompt) people_names /\
      PyStr.substring genre prompt /\
      PyRepr.str_int desired_length = Some (pretty desired_length) /\
      PyStr.substring (pretty desired_length) prompt /\
      PyStr.substring (PyRepr.str_list image_content) prompt /\
      (Forall unescaped image_content ->
       PyStr.occur_in_order image_content prompt).
Proof.
  intros _ requests.
  destruct (process_image_total respond self image_data s)
    as (image_content & s1 & t1 & Hvision & _ & _).
  exists image_content.
  split; [by rewrite Hvision |].
  split; [apply read_str_list_str_list |].
  split.
  { intros Hlimit. eexists. subst requests.
    by apply generate_story_requests with s1 t1. }
  intros prompt Hrequests. subst requests.
  destruct (Z.lt_ge_cases (Z.abs desired_length) PyRepr.int_str_limit)
    as [Hlimit | Hlimit].
  2: { by rewrite (generate_story_requests_refused respond _ _ _ _ _ _ Hlimit)
         in Hrequests. }
  rewrite (generate_story_requests respond _ _ _ _ _ _ _ _ _ Hlimit Hvision)
    in Hrequests.
  injection Hrequests as <-.
  assert (PyStr.occur_in_order people_names
            (prompt_for (PyStr.join ", " people_names) genre desired_length
               image_content)) as Hnames.
  { unfold prompt_for, story_prompt_text.
    do 2 apply occur_in_order_app_l. apply occur_in_order_join. }
  split; [reflexivity |].
  split; [exact Hnames |].
  split; [by apply occur_in_order_substring |].
  unfold prompt_for, story_prompt_text.
  split; [do 4 apply substring_app_l; apply substring_refl |].
  split.
  { unfold PyRepr.str_int. apply Z.ltb_lt in Hlimit. by rewrite Hlimit. }
  split; [do 6 apply substring_app_l; apply substring_refl |].
  split; [do 13 apply substring_app_l; apply substring_refl |].
  intros Hplain.
  do 13 apply occur_in_order_app_l. by apply occur_in_order_str_list.
Qed.

(** The scenario of Alex and Jamie: a mystery of 150 words. *)
Lemma story_request_prompt_embeds_inputs_witness :
  let requests :=
    requests_of (trace (run (Fixture.always (Fixture.ok (VStr Fixture.two_people)))
      (generate_story_from_image Fixture.jpeg ["Alex"; "Jamie"] "mystery" 150
         Fixture.generator) tt)) in
  ["Alex"; "Jamie"] <> [] /\
  Z.abs 150 < PyRepr.int_str_limit /\
  exists (image_content : list string) (prompt : string),
    returned (run (Fixture.always (Fixture.ok (VStr Fixture.two_people)))
                (process_image Fixture.jpeg Fixture.generator) tt)
      = inr image_content /\
    requests
      = [vision_request Fixture.generator Fixture.jpeg;
         story_request Fixture.generator prompt] /\
    PyStr.occur_in_order ["Alex"; "Jamie"] prompt /\
    PyStr.substring "mystery" prompt /\
    PyStr.substring "150" prompt /\
    PyStr.substring (PyRepr.str_list image_content) prompt.
Proof.
  cbv zeta.
  assert (["Alex"; "Jamie"] <> []) as Hnames by discriminate.
  assert (Z.abs 150 < PyRepr.int_str_limit) as Hlimit
    by (vm_compute; reflexivity).
  split; [exact Hnames |]. split; [exact Hlimit |].
  destruct (story_request_prompt_embeds_inputs
              (Fixture.always (Fixture.ok (VStr Fixture.two_people))) tt
              Fixture.generator Fixture.jpeg ["Alex"; "Jamie"] "mystery" 150
              Hnames)
    as (image_content & Hvision & _ & Hposted & Hprompt).
  destruct (Hposted Hlimit) as (prompt & Hrequests).
  destruct (Hprompt prompt Hrequests)
    as (_ & H3 & _ & H4 & _ & H5 & H6 & _).
  exists image_content, prompt. repeat split; assumption.
Defined.

(** The whole scenario, evaluated: the two descriptions, the prompt that
    holds the names, the genre, the length and both descriptions, the two
    requests and the story returned. *)
Lemma scenario_alex_and_jamie :
  let script :=
    [Fixture.ok (VStr Fixture.two_people); Fixture.ok (VStr Fixture.story)] in
  let descriptions :=
    ["A tall man in a red jacket"; "A woman with short black hair"] in
  let prompt := prompt_for "Alex, Jamie" "mystery" 150 descriptions in
  let outcome :=
    run Fixture.replay
      (generate_story_from_image Fixture.jpeg ["Alex"; "Jamie"] "mystery" 150
         Fixture.generator) script in
  returned (run Fixture.replay (process_image Fixture.jpeg Fixture.generator) script)
    = inr descriptions /\
  forallb (PyStr.contains prompt)
    ("Alex" :: "Jamie" :: "mystery" :: "150" :: descriptions) = true /\
  requests_of (trace outcome)
    = [vision_request Fixture.generator Fixture.jpeg;
       story_request Fixture.generator prompt] /\
  returned outcome = inr (VStr "Alex crept through the fog...").
Proof. cbv zeta. repeat split; vm_compute; reflexivity. Qed.

(** ** Requests per invocation *)

(** C5, as stated, fails for the story stage: one call of
    [generate_story_from_image] posts two requests, the vision request of
    its call of [process_image] and the story request. *)
Lemma generate_story_posts_two_requests :
  let script := [Fixture.ok (VStr Fixture.two_people); Fixture.ok (VStr Fixture.story)] in
  let requests :=
    requests_of (trace (run Fixture.replay
      (generate_story_from_image Fixture.jpeg ["Alex"; "Jamie"] "mystery" 150
         Fixture.generator) script)) in
  length requests = 2%nat /\ length requests <> 1%nat.
Proof.
  cbv zeta.
  assert (length (requests_of (trace (run Fixture.replay
            (generate_story_from_image Fixture.jpeg ["Alex"; "Jamie"] "mystery" 150
               Fixture.generator)
            [Fixture.ok (VStr Fixture.two_people); Fixture.ok (VStr Fixture.story)])))
          = 2%nat) as Hlen by (vm_compute; reflexivity).
  rewrite Hlen. split; [reflexivity | discriminate].
Qed.

(** C5 (amended): whatever the backend does, one call of [process_image]
    posts exactly one request, the vision request, and one call of
    [generate_story_from_image] with a length of at most 4300 decimal
    digits posts exactly two: the vision request of its call of
    [process_image], then one story request; no request is posted again
    after a failure. *)
Theorem requests_per_invocation {B : Type}
    (respond : B -> request -> outcome * B) (s : B)
    (self : ImageStoryGenerator) (image_data : list byte)
    (people_names : list string) (genre : string) (desired_length : Z) :
  Z.abs desired_length < PyRepr.int_str_limit ->
  requests_of (trace (run respond (process_image image_data self) s))
    = [vision_request self image_data] /\
  exists prompt : string,
    requests_of (trace (run respond
      (generate_story_from_image image_data people_names genre desired_length self) s))
    = [vision_request self image_data; story_request self prompt].
Proof.
  intros Hlimit.
  destruct (process_image_total respond self image_data s)
    as (image_content & s1 & t1 & Hvision & _ & Hrequests).
  split.
  - by rewrite Hvision.
  - eexists. by apply generate_story_requests with s1 t1.
Qed.

(** Both requests are refused with status 500: none is posted again. *)
Lemma requests_per_invocation_witness :
  let respond := Fixture.always (Returns (Response 500 None)) in
  Z.abs 150 < PyRepr.int_str_limit /\
  requests_of (trace (run respond (process_image Fixture.jpeg Fixture.generator) tt))
    = [vision_request Fixture.generator Fixture.jpeg] /\
  length (requests_of (trace (run respond
    (generate_story_from_image Fixture.jpeg ["Alex"] "drama" 150
       Fixture.generator) tt))) = 2%nat.
Proof.
  cbv zeta.
  assert (Z.abs 150 < PyRepr.int_str_limit) as Hlimit
    by (vm_compute; reflexivity).
  split; [exact Hlimit |].
  destruct (requests_per_invocation
              (Fixture.always (Returns (Response 500 None))) tt
              Fixture.generator Fixture.jpeg ["Alex"] "drama" 150 Hlimit)
    as (Hvision & prompt & Hstory).
  split; [exact Hvision |]. rewrite Hstory. reflexivity.
Defined.

(** ** The vision stage failed *)

(** C10: when its call of [process_image] returns the empty list,
    [generate_story_from_image] goes on: for a length that [str] renders,
    one of at most 4300 decimal digits, it builds the prompt around the
    rendering [[]] of the empty list, posts the story request with that
    prompt as the content of its message, and returns the story of a
    successful response. *)
Theorem generate_story_continues_after_vision_failure {B : Type}
    (respond : B -> request -> outcome * B) (s s1 : B)
    (self : ImageStoryGenerator) (image_data : list byte)
    (people_names : list string) (genre : string) (desired_length : Z)
    (t1 : list event) :
  Z.abs desired_length < PyRepr.int_str_limit ->
  run respond (process_image image_data self) s = (inr [], self, s1, t1) ->
  let prompt :=
    prompt_for (PyStr.join ", " people_names) genre desired_length [] in
  requests_of (trace (run respond
    (generate_story_from_image image_data people_names genre desired_length self) s))
    = [vision_request self image_data; story_request self prompt] /\
  and_then (getitem_key (json (story_request self prompt)) "messages")
    (fun messages => and_then (getitem_index messages 0)
       (fun message => getitem_key message "content"))
    = inr (VStr prompt) /\
  PyStr.substring
    ("Image Description:" +:+ PyStr.nl +:+ "        " +:+ "[]" +:+ PyStr.nl)
    prompt /\
  forall (r : response) (s2 : B) (result : value) (story : string),
    respond s1 (story_request self prompt) = (Returns r, s2) ->
    is_error_status (status_code r) = false ->
    body r = Some result ->
    message_content result = inr (VStr story) ->
    returned (run respond
      (generate_story_from_image image_data people_names genre desired_length self) s)
    = inr (VStr story).
Proof.
  intros Hlimit Hvision prompt. split; [| split; [| split]].
  - by apply generate_story_requests with s1 t1.
  - reflexivity.
  - exists
      (PyStr.nl +:+
       "        Based on the following image description and the provided character names: "
         +:+ PyStr.join ", " people_names +:+
       ", create a short story in the first person that is engaging and creative for a "
         +:+ genre +:+
       " audience. The story should be no more than "
         +:+ pretty desired_length +:+ " words." +:+ PyStr.nl +:+
       PyStr.nl +:+ "        "),
      "        ".
    subst prompt. unfold prompt_for, story_prompt_text.
    rewrite !append_assoc. reflexivity.
  - intros r s2 result story Hrespond Hstatus Hbody Hcontent.
    rewrite (generate_story_run_rendered respond _ _ _ _ _ _ _ _ _ Hlimit Hvision).
    cbv zeta. fold prompt. rewrite Hrespond.
    by rewrite (content_of_success r result (VStr story)).
Qed.

(** The vision request is rejected with status 500; the story request
    succeeds. *)
Lemma generate_story_continues_after_vision_failure_witness :
  let script := [Returns (Response 500 None); Fixture.ok (VStr Fixture.story)] in
  let vision :=
    run Fixture.replay (process_image Fixture.jpeg Fixture.generator) script in
  Z.abs 150 < PyRepr.int_str_limit /\
  vision = (inr [], Fixture.generator, [Fixture.ok (VStr Fixture.story)], trace vision) /\
  returned (run Fixture.replay
    (generate_story_from_image Fixture.jpeg ["Alex"; "Jamie"] "mystery" 150
       Fixture.generator) script)
  = inr (VStr "Alex crept through the fog...").
Proof.
  cbv zeta.
  set (script := [Returns (Response 500 None); Fixture.ok (VStr Fixture.story)]).
  set (vision :=
    run Fixture.replay (process_image Fixture.jpeg Fixture.generator) script).
  assert (Z.abs 150 < PyRepr.int_str_limit) as Hlimit
    by (vm_compute; reflexivity).
  assert (vision =
    (inr [], Fixture.generator, [Fixture.ok (VStr Fixture.story)], trace vision))
    as Hvision by reflexivity.
  split; [exact Hlimit |]. split; [exact Hvision |].
  exact (proj2 (proj2 (proj2 (generate_story_continues_after_vision_failure
           Fixture.replay script [Fixture.ok (VStr Fixture.story)]
           Fixture.generator Fixture.jpeg ["Alex"; "Jamie"] "mystery" 150
           (trace vision) Hlimit Hvision)))
         (Response 200 (Some (Fixture.completion (VStr Fixture.story)))) []
         (Fixture.completion (VStr Fixture.story)) Fixture.story
         eq_refl eq_refl eq_refl eq_refl).
Defined.

(** ** The generator object across calls *)

Section ObjectState.
Context {B : Type} (respond : B -> request -> outcome * B).

(** Neither method changes the object. *)
Lemma process_image_object_after (self : ImageStoryGenerator)
    (image_data : list byte) (s : B) :
  object_after (run respond (process_image image_data self) s) = self.
Proof.
  destruct (process_image_total respond self image_data s)
    as (ds & s1 & t1 & -> & _ & _).
  reflexivity.
Qed.

Lemma generate_story_object_after (self : ImageStoryGenerator)
    (image_data : list byte) (people_names : list string) (genre : string)
    (desired_length : Z) (s : B) :
  object_after (run respond
    (generate_story_from_image image_data people_names genre desired_length self) s)
  = self.
Proof.
  destruct (generate_story_total respond self image_data people_names genre
              desired_length s) as (story & s2 & t & ->).
  reflexivity.
Qed.

(** The cache takes no part in a call of [process_image]: with another
    cache the call returns the same, leaves the backend in the same state
    and produces the same events. *)
Lemma process_image_with_cache (c : gmap string value)
    (self : ImageStoryGenerator) (image_data : list byte) (s : B) :
  run respond (process_image image_data (with_cache c self)) s =
    let '(r, _, s1, t) := run respond (process_image image_data self) s in
    (r, with_cache c self, s1, t).
Proof.
  rewrite !process_image_run; simpl.
  change (vision_request (with_cache c self) image_data)
    with (vision_request self image_data).
  destruct (respond s _) as [o s1].
  destruct (and_then _ _); reflexivity.
Qed.

(** The same for [generate_story_from_image]. *)
Lemma generate_story_with_cache (c : gmap string value)
    (self : ImageStoryGenerator) (image_data : list byte)
    (people_names : list string) (genre : string) (desired_length : Z) (s : B) :
  run respond
    (generate_story_from_image image_data people_names genre desired_length
       (with_cache c self)) s =
    let '(r, _, s2, t) :=
      run respond
        (generate_story_from_image image_data people_names genre desired_length
           self) s in
    (r, with_cache c self, s2, t).
Proof.
  destruct (process_image_total respond self image_data s)
    as (ds & s1 & t1 & Hvision & _ & _).
  assert (run respond (process_image image_data (with_cache c self)) s
          = (inr ds, with_cache c self, s1, t1)) as Hvision'
    by (by rewrite process_image_with_cache, Hvision).
  rewrite (generate_story_run respond _ _ _ _ _ _ _ _ _ Hvision).
  rewrite (generate_story_run respond _ _ _ _ _ _ _ _ _ Hvision'); cbv zeta.
  destruct (story_prompt _ _ _ _) as [e | prompt]; [reflexivity |].
  change (story_request (with_cache c self)) with (story_request self).
  destruct (respond s1 _) as [o s2].
  destruct (content_of o); reflexivity.
Qed.

End ObjectState.

(** C7: against a backend whose answers depend on the request alone, two
    calls of [process_image] in a row on the same generator and the same
    image return the same descriptions, and each call leaves the generator
    as it found it. *)
Theorem process_image_twice_same_result {B : Type}
    (respond : B -> request -> outcome * B) (s : B)
    (self : ImageStoryGenerator) (image_data : list byte) :
  deterministic respond ->
  let first := run respond (process_image image_data self) s in
  let second :=
    run respond (process_image image_data (object_after first))
      (backend_after first) in
  returned second = returned first /\
  object_after first = self /\
  object_after second = self.
Proof.
  intros Hdet first second.
  assert (object_after first = self) as Hfirst
    by apply process_image_object_after.
  assert (object_after second = self) as Hsecond.
  { subst second. rewrite Hfirst. apply process_image_object_after. }
  split; [| by split].
  subst second. rewrite Hfirst. subst first.
  rewrite !process_image_run; simpl.
  pose proof (Hdet s (backend_after
    (run respond (process_image image_data self) s))
    (vision_request self image_data)) as Hsame.
  rewrite process_image_run in Hsame; simpl in Hsame.
  destruct (respond s (vision_request self image_data)) as [o s1] eqn:Hrespond.
  simpl in Hsame.
  destruct (and_then (content_of o) _) as [e | ds] eqn:Hcontent;
    unfold backend_after in *; simpl in *;
    destruct (respond s1 (vision_request self image_data)) as [o' s1'];
    simpl in Hsame; subst o'; rewrite Hcontent; reflexivity.
Qed.

(** A mock that always answers with the two people and counts its requests. *)
Lemma process_image_twice_same_result_witness :
  let respond := Fixture.counting (Fixture.ok (VStr Fixture.two_people)) in
  let first := run respond (process_image Fixture.jpeg Fixture.generator) 0%nat in
  let second :=
    run respond (process_image Fixture.jpeg (object_after first))
      (backend_after first) in
  deterministic respond /\
  returned second = returned first /\
  backend_after second = 2%nat.
Proof.
  cbv zeta.
  assert (deterministic (Fixture.counting (Fixture.ok (VStr Fixture.two_people))))
    as Hdet by (intros s s' rq; reflexivity).
  split; [exact Hdet |].
  split; [| reflexivity].
  exact (proj1 (process_image_twice_same_result
           (Fixture.counting (Fixture.ok (VStr Fixture.two_people))) 0%nat
           Fixture.generator Fixture.jpeg Hdet)).
Defined.

(** C9: the cache of a new generator is empty and it is empty in every
    generator that calls of the two methods can produce; the methods do not
    read it either: with any other cache in its place they return the same
    values, post the same requests and log the same events, and leave that
    cache as it was. *)
Theorem cache_stays_empty_and_unused (self : ImageStoryGenerator) :
  reachable self ->
  cache self = ∅ /\
  forall (c : gmap string value) (B : Type)
    (respond : B -> request -> outcome * B) (s : B) (image_data : list byte)
    (people_names : list string) (genre : string) (desired_length : Z),
    let vision := run respond (process_image image_data self) s in
    let vision' := run respond (process_image image_data (with_cache c self)) s in
    let story :=
      run respond
        (generate_story_from_image image_data people_names genre desired_length
           self) s in
    let story' :=
      run respond
        (generate_story_from_image image_data people_names genre desired_length
           (with_cache c self)) s in
    (returned vision' = returned vision /\ trace vision' = trace vision /\
     backend_after vision' = backend_after vision /\
     cache (object_after vision') = c) /\
    (returned story' = returned story /\ trace story' = trace story /\
     backend_after story' = backend_after story /\
     cache (object_after story') = c).
Proof.
  intros Hreach. split.
  - induction Hreach as [env lg | self B respond s image_data Hreach IH
                         | self B respond s image_data names genre len Hreach IH].
    + reflexivity.
    + by rewrite process_image_object_after.
    + by rewrite generate_story_object_after.
  - intros c B respond s image_data names genre len vision vision' story story'.
    subst vision' story'.
    rewrite process_image_with_cache, generate_story_with_cache.
    fold vision story.
    destruct vision as [[[r1 o1] b1] t1], story as [[[r2 o2] b2] t2].
    by repeat split.
Qed.

(** A generator that has served one call of each method. *)
Lemma cache_stays_empty_and_unused_witness :
  let respond := Fixture.always (Fixture.ok (VStr Fixture.two_people)) in
  let after_vision :=
    object_after (run respond (process_image Fixture.jpeg Fixture.generator) tt) in
  let after_story :=
    object_after (run respond
      (generate_story_from_image Fixture.jpeg ["Alex"] "drama" 100 after_vision)
      tt) in
  reachable after_story /\ cache after_story = ∅.
Proof.
  cbv zeta.
  assert (reachable
    (object_after (run (Fixture.always (Fixture.ok (VStr Fixture.two_people)))
      (generate_story_from_image Fixture.jpeg ["Alex"] "drama" 100
         (object_after
            (run (Fixture.always (Fixture.ok (VStr Fixture.two_people)))
               (process_image Fixture.jpeg Fixture.generator) tt)))
      tt))) as Hreach.
  { apply reachable_generate_story, reachable_process_image.
    apply reachable_init. }
  split; [exact Hreach |].
  exact (proj1 (cache_stays_empty_and_unused _ Hreach)).
Defined.

(** ** Start-up without a credential *)

(** C8: when the environment has no [OPENAI_API_KEY], the module raises
    [ValueError] at start-up, before the class is defined and a generator
    constructed: there is no generator to call. *)
Theorem main_raises_without_credential (env : gmap string string) :
  env !! "OPENAI_API_KEY" = None ->
  main env = inl (ValueError api_key_missing) /\
  forall generator : ImageStoryGenerator, main env <> inr generator.
Proof.
  intros Habsent. unfold main, getenv. rewrite Habsent. by split.
Qed.

(** The empty environment. *)
Lemma main_raises_without_credential_witness :
  (∅ : gmap string string) !! "OPENAI_API_KEY" = None /\
  main ∅ =
    inl (ValueError "API key not found. Make sure to set it in your environment.").
Proof.
  assert ((∅ : gmap string string) !! "OPENAI_API_KEY" = None) as Habsent
    by reflexivity.
  split; [exact Habsent |].
  exact (proj1 (main_raises_without_credential ∅ Habsent)).
Defined.

(** * Further properties of the pipeline *)

(** ** The parse of the vision response, continued *)

Section SplitFacts.
Import PyStr.

Lemma join_cons_char (sep : string) (c : ascii) (piece : string)
    (pieces : list string) :
  join sep (String c piece :: pieces) = String c (join sep (piece :: pieces)).
Proof. destruct pieces; reflexivity. Qed.

(** Joining the pieces with the separator gives the text back. *)
Lemma join_split (s : string) : join nl (split LF s) = s.
Proof.
  induction s as [| c s IH]; [reflexivity |].
  simpl. destruct (Ascii.eqb_spec c LF) as [-> | Hne].
  - pose proof (split_not_nil LF s) as Hnil.
    destruct (split LF s) as [| piece pieces] eqn:Hsplit; [done |].
    change (join nl (EmptyString :: piece :: pieces))
      with (nl +:+ join nl (piece :: pieces)).
    by rewrite IH.
  - pose proof (split_not_nil LF s) as Hnil.
    destruct (split LF s) as [| piece pieces] eqn:Hsplit; [done |].
    by rewrite join_cons_char, IH.
Qed.

(** No piece holds the separator. *)
Lemma split_pieces_are_lines (s : string) : Forall is_line (split LF s).
Proof.
  induction s as [| c s IH]; [by repeat constructor |].
  simpl. destruct (Ascii.eqb c LF) eqn:Hc.
  - by constructor.
  - pose proof (split_not_nil LF s) as Hnil.
    destruct (split LF s) as [| piece pieces]; [done |].
    apply Forall_cons in IH as [Hpiece Hpieces].
    constructor; [| done]. unfold is_line in *; simpl. by rewrite Hc.
Qed.

End SplitFacts.

(** X1: [process_image] returns the empty list exactly when the backend
    failed (the call raised, the status was 400 to 599, the body was not
    JSON or held no string at [choices[0].message.content]); a successful
    response, even one with an empty content, gives at least one entry. *)
Theorem process_image_empty_exactly_on_failure {B : Type}
    (respond : B -> request -> outcome * B) (s : B)
    (self : ImageStoryGenerator) (image_data : list byte) :
  (returned (run respond (process_image image_data self) s) = inr [] <->
   vision_failure (respond s (vision_request self image_data)).1) /\
  (forall descriptions,
     returned (run respond (process_image image_data self) s) = inr descriptions ->
     descriptions <> [] ->
     exists content,
       content_of (respond s (vision_request self image_data)).1
         = inr (VStr content) /\
       descriptions = PyStr.split PyStr.LF content).
Proof.
  rewrite process_image_run; simpl.
  destruct (respond s _) as [o s1]; simpl.
  destruct (and_then (content_of o) _) as [e | ds] eqn:Hsplit; simpl.
  - split.
    + split; [intros _ | done]. by eapply vision_raises_failure.
    + by intros descriptions [= <-].
  - destruct (content_of o) as [e | c] eqn:Hcontent; simpl in Hsplit; [done |].
    destruct c as [| | | | text | |]; simpl in Hsplit; try done.
    injection Hsplit as <-. split.
    + split.
      * intros [= Hnil]. by destruct (split_not_nil PyStr.LF text).
      * intros Hfail. apply vision_failure_raises in Hfail as [e He].
        rewrite Hcontent in He. discriminate.
    + intros descriptions [= <-] _. by exists text.
Qed.

(** X2: the parse of a successful response loses nothing: joining the
    descriptions that [process_image] returns with line feeds gives the
    content back, no description holds a line feed, and there is at least
    one description. *)
Theorem process_image_descriptions_rebuild_content {B : Type}
    (respond : B -> request -> outcome * B) (s s1 : B)
    (self : ImageStoryGenerator) (image_data : list byte)
    (r : response) (result : value) (content : string) :
  respond s (vision_request self image_data) = (Returns r, s1) ->
  is_error_status (status_code r) = false ->
  body r = Some result ->
  message_content result = inr (VStr content) ->
  exists descriptions : list string,
    returned (run respond (process_image image_data self) s) = inr descriptions /\
    PyStr.join PyStr.nl descriptions = content /\
    Forall is_line descriptions /\
    descriptions <> [].
Proof.
  intros Hrespond Hstatus Hbody Hcontent.
  exists (PyStr.split PyStr.LF content). split; [| split; [| split]].
  - rewrite process_image_run; simpl. rewrite Hrespond.
    by rewrite (content_of_success r result (VStr content)).
  - apply join_split.
  - apply split_pieces_are_lines.
  - apply split_not_nil.
Qed.

(** A content with a blank line and a trailing line feed. *)
Lemma process_image_descriptions_rebuild_content_witness :
  let content := Fixture.blank_line +:+ PyStr.nl in
  let result := Fixture.completion (VStr content) in
  let r := Response 200 (Some result) in
  let respond := Fixture.always (Returns r) in
  respond tt (vision_request Fixture.generator Fixture.jpeg) = (Returns r, tt) /\
  is_error_status (status_code r) = false /\
  body r = Some result /\
  message_content result = inr (VStr content) /\
  exists descriptions : list string,
    returned (run respond (process_image Fixture.jpeg Fixture.generator) tt)
      = inr descriptions /\
    PyStr.join PyStr.nl descriptions = content.
Proof.
  cbv zeta. do 4 (split; [reflexivity |]).
  destruct (process_image_descriptions_rebuild_content
    (Fixture.always (Returns (Response 200 (Some (Fixture.completion
       (VStr (Fixture.blank_line +:+ PyStr.nl))))))) tt tt
    Fixture.generator Fixture.jpeg
    (Response 200 (Some (Fixture.completion
       (VStr (Fixture.blank_line +:+ PyStr.nl)))))
    (Fixture.completion (VStr (Fixture.blank_line +:+ PyStr.nl)))
    (Fixture.blank_line +:+ PyStr.nl)
    eq_refl eq_refl eq_refl eq_refl) as (descriptions & Hreturned & Hjoin & _).
  by exists descriptions.
Defined.

(** ** The path into the response body *)

(** X3: the path [result['choices'][0]['message']['content']] resolves
    exactly for a dictionary whose [choices] is a list that starts with a
    dictionary whose [message] is a dictionary with a [content]; every other
    body (a list or a string at the top, no or empty [choices], [choices] a
    string or a dictionary, a [message] that is not a dictionary) raises. *)
Theorem message_content_resolves_exactly (result content : value) :
  message_content result = inr content <->
  exists (d first message : list (string * value)) (others : list value),
    result = VDict d /\
    dict_get d "choices" = Some (VList (VDict first :: others)) /\
    dict_get first "message" = Some (VDict message) /\
    dict_get message "content" = Some content.
Proof.
  unfold message_content. split.
  - destruct result as [| | | | | | d]; simpl; try done.
    destruct (dict_get d "choices") as [choices |] eqn:Hchoices; simpl; [| done].
    destruct choices as [| | | | text | l | d']; simpl; try done.
    + destruct (String.get 0 text); simpl; done.
    + destruct l as [| choice others]; simpl; [done |].
      destruct choice as [| | | | | | first]; simpl; try done.
      destruct (dict_get first "message") as [message |] eqn:Hmessage;
        simpl; [| done].
      destruct message as [| | | | | | message]; simpl; try done.
      destruct (dict_get message "content") as [c |] eqn:Hcontent;
        simpl; [| done].
      intros [= <-]. by exists d, first, message, others.
  - intros (d & first & message & others & -> & Hchoices & Hmessage & Hcontent).
    simpl. rewrite Hchoices; simpl. rewrite Hmessage; simpl.
    by rewrite Hcontent.
Qed.

(** ** What the story stage returns and what is logged *)

(** X4: for a length of at most 4300 decimal digits,
    [generate_story_from_image] returns the error text exactly when the
    story request failed or its response holds that very text as content;
    the value alone does not tell the two apart. *)
Theorem generate_story_error_text_exactly {B : Type}
    (respond : B -> request -> outcome * B) (s s1 : B)
    (self : ImageStoryGenerator) (image_data : list byte)
    (people_names : list string) (genre : string) (desired_length : Z)
    (image_content : list string) (t1 : list event) :
  Z.abs desired_length < PyRepr.int_str_limit ->
  run respond (process_image image_data self) s
    = (inr image_content, self, s1, t1) ->
  let o :=
    (respond s1
       (story_request self
          (prompt_for (PyStr.join ", " people_names) genre desired_length
             image_content))).1 in
  returned (run respond
    (generate_story_from_image image_data people_names genre desired_length self) s)
    = inr (VStr "Error generating story.") <->
  story_failure o \/ content_of o = inr (VStr "Error generating story.").
Proof.
  intros Hlimit Hvision o.
  rewrite (generate_story_run_rendered respond _ _ _ _ _ _ _ _ _ Hlimit Hvision).
  cbv zeta.
  subst o. destruct (respond s1 _) as [o s2]; simpl.
  destruct (content_of o) as [e | story] eqn:Hcontent; simpl.
  - split; [intros _; left | done].
    destruct o as [e' | r]; simpl in *; [done |].
    unfold raise_for_status, response_json in Hcontent.
    destruct (is_error_status (status_code r)); simpl in *; [by left |].
    destruct (body r) as [result |]; simpl in *; [| by right; left].
    right; right. by exists result, e.
  - split.
    + intros [= ->]. by right.
    + intros [Hfail | Hsame]; [| by rewrite Hsame].
      apply story_failure_raises in Hfail as [e He]. congruence.
Qed.

(** A response whose content is the error text, after a vision stage that
    succeeded. *)
Lemma generate_story_error_text_exactly_witness :
  let script :=
    [Fixture.ok (VStr Fixture.two_people); Fixture.ok (VStr story_error)] in
  let vision :=
    run Fixture.replay (process_image Fixture.jpeg Fixture.generator) script in
  let image_content :=
    ["A tall man in a red jacket"; "A woman with short black hair"] in
  Z.abs 100 < PyRepr.int_str_limit /\
  vision = (inr image_content, Fixture.generator, backend_after vision,
            trace vision) /\
  returned (run Fixture.replay
    (generate_story_from_image Fixture.jpeg ["Alex"] "drama" 100
       Fixture.generator) script)
    = inr (VStr "Error generating story.").
Proof.
  cbv zeta.
  set (script :=
    [Fixture.ok (VStr Fixture.two_people); Fixture.ok (VStr story_error)]).
  set (vision :=
    run Fixture.replay (process_image Fixture.jpeg Fixture.generator) script).
  assert (Z.abs 100 < PyRepr.int_str_limit) as Hlimit
    by (vm_compute; reflexivity).
  assert (vision =
    (inr ["A tall man in a red jacket"; "A woman with short black hair"],
     Fixture.generator, backend_after vision, trace vision)) as Hvision
    by reflexivity.
  split; [exact Hlimit |]. split; [exact Hvision |].
  apply (generate_story_error_text_exactly Fixture.replay script
           (backend_after vision) Fixture.generator Fixture.jpeg ["Alex"]
           "drama" 100
           ["A tall man in a red jacket"; "A woman with short black hair"]
           (trace vision) Hlimit Hvision).
  right. reflexivity.
Defined.

(** X5: for a length of at most 4300 decimal digits, a successful story
    response is returned whatever the type of its content: a content that
    is [null], a number or a list comes back as it is, not as the error
    text and not as a string, and the story stage logs no error. *)
Theorem generate_story_returns_content_of_any_type {B : Type}
    (respond : B -> request -> outcome * B) (s s1 s2 : B)
    (self : ImageStoryGenerator) (image_data : list byte)
    (people_names : list string) (genre : string) (desired_length : Z)
    (image_content : list string) (t1 : list event)
    (r : response) (result content : value) :
  Z.abs desired_length < PyRepr.int_str_limit ->
  run respond (process_image image_data self) s
    = (inr image_content, self, s1, t1) ->
  respond s1
    (story_request self
       (prompt_for (PyStr.join ", " people_names) genre desired_length
          image_content))
    = (Returns r, s2) ->
  is_error_status (status_code r) = false ->
  body r = Some result ->
  message_content result = inr content ->
  returned (run respond
    (generate_story_from_image image_data people_names genre desired_length self) s)
    = inr content /\
  error_logs (trace (run respond
    (generate_story_from_image image_data people_names genre desired_length self) s))
    = error_logs t1.
Proof.
  intros Hlimit Hvision Hrespond Hstatus Hbody Hcontent.
  rewrite (generate_story_run_rendered respond _ _ _ _ _ _ _ _ _ Hlimit Hvision).
  cbv zeta. rewrite Hrespond.
  rewrite (content_of_success r result content) by done.
  split; [reflexivity |]. unfold trace; simpl.
  clear. induction t1 as [| [lg [] msg exc | rq] t IH]; simpl; by rewrite ?IH.
Qed.

(** A story response whose content is [null]. *)
Lemma generate_story_returns_content_of_any_type_witness :
  let result := Fixture.completion VNone in
  let r := Response 200 (Some result) in
  let script := [Fixture.ok (VStr Fixture.two_people); Returns r] in
  let vision :=
    run Fixture.replay (process_image Fixture.jpeg Fixture.generator) script in
  let image_content :=
    ["A tall man in a red jacket"; "A woman with short black hair"] in
  Z.abs 100 < PyRepr.int_str_limit /\
  vision = (inr image_content, Fixture.generator, [Returns r], trace vision) /\
  Fixture.replay [Returns r]
    (story_request Fixture.generator
       (prompt_for (PyStr.join ", " ["Alex"]) "drama" 100 image_content))
    = (Returns r, []) /\
  is_error_status (status_code r) = false /\
  body r = Some result /\
  message_content result = inr VNone /\
  returned (run Fixture.replay
    (generate_story_from_image Fixture.jpeg ["Alex"] "drama" 100
       Fixture.generator) script)
    = inr VNone.
Proof.
  cbv zeta.
  set (result := Fixture.completion VNone).
  set (r := Response 200 (Some result)).
  set (script := [Fixture.ok (VStr Fixture.two_people); Returns r]).
  set (vision :=
    run Fixture.replay (process_image Fixture.jpeg Fixture.generator) script).
  set (image_content :=
    ["A tall man in a red jacket"; "A woman with short black hair"]).
  assert (Z.abs 100 < PyRepr.int_str_limit) as Hlimit
    by (vm_compute; reflexivity).
  assert (vision = (inr image_content, Fixture.generator, [Returns r], trace vision))
    as Hvision by reflexivity.
  split; [exact Hlimit |].
  do 5 (split; [reflexivity |]).
  exact (proj1 (generate_story_returns_content_of_any_type Fixture.replay script
           [Returns r] [] Fixture.generator Fixture.jpeg ["Alex"] "drama" 100
           image_content (trace vision) r result VNone
           Hlimit Hvision eq_refl eq_refl eq_refl eq_refl)).
Defined.

(** X17: a length of more than 4300 decimal digits makes
    [generate_story_from_image] raise: the f-string of the prompt stands
    before the [try], so the [ValueError] of [str] leaves the method after
    the vision request has been posted; no story request is posted and the
    method logs no error of its own. *)
Theorem generate_story_raises_beyond_the_digit_limit {B : Type}
    (respond : B -> request -> outcome * B) (s : B)
    (self : ImageStoryGenerator) (image_data : list byte)
    (people_names : list string) (genre : string) (desired_length : Z) :
  PyRepr.int_str_limit <= Z.abs desired_length ->
  let vision := run respond (process_image image_data self) s in
  let call :=
    run respond
      (generate_story_from_image image_data people_names genre desired_length
         self) s in
  returned call = inl int_str_error /\
  requests_of (trace call) = [vision_request self image_data] /\
  error_logs (trace call) = error_logs (trace vision) /\
  backend_after call = backend_after vision /\
  object_after call = self.
Proof.
  intros Hlimit vision call. subst vision call.
  destruct (process_image_total respond self image_data s)
    as (ds & s1 & t1 & Hvision & _ & Hrequests).
  rewrite (generate_story_run respond _ _ _ _ _ _ _ _ _ Hvision); cbv zeta.
  rewrite (story_prompt_refused _ _ _ _ Hlimit), Hvision.
  unfold returned, trace, backend_after, object_after; simpl.
  by rewrite Hrequests.
Qed.

(** The least length that [str] refuses: one followed by 4300 zeros. *)
Lemma generate_story_raises_beyond_the_digit_limit_witness :
  PyRepr.int_str_limit <= Z.abs PyRepr.int_str_limit /\
  returned (run (Fixture.always (Fixture.ok (VStr Fixture.two_people)))
    (generate_story_from_image Fixture.jpeg ["Alex"] "drama"
       PyRepr.int_str_limit Fixture.generator) tt)
  = inl int_str_error.
Proof.
  assert (PyRepr.int_str_limit <= Z.abs PyRepr.int_str_limit) as Hlimit by lia.
  split; [exact Hlimit |].
  exact (proj1 (generate_story_raises_beyond_the_digit_limit
           (Fixture.always (Fixture.ok (VStr Fixture.two_people))) tt
           Fixture.generator Fixture.jpeg ["Alex"] "drama" PyRepr.int_str_limit
           Hlimit)).
Defined.

(** ** The image in the vision request *)

Section Base64Facts.
Import Base64.

Lemma digit_value_digit (k : N) :
  (k < 64)%N -> digit_value (digit k) = Some k.
Proof.
  intros Hk. destruct k as [| p]; [reflexivity |].
  do 7 (try (destruct p as [p | p |]; try reflexivity)); lia.
Qed.

Lemma digit_not_pad (k : N) :
  (k < 64)%N -> Ascii.eqb (digit k) "=" = false.
Proof.
  intros Hk. destruct k as [| p]; [reflexivity |].
  do 7 (try (destruct p as [p | p |]; try reflexivity)); lia.
Qed.

(** The four digits of a group of three bytes, and the bytes back. *)
Lemma sextets (a b c n : N) :
  (a <= 255)%N -> (b <= 255)%N -> (c <= 255)%N ->
  n = (a * 65536 + b * 256 + c)%N ->
  let v1 := (n / 262144)%N in
  let v2 := ((n / 4096) mod 64)%N in
  let v3 := ((n / 64) mod 64)%N in
  let v4 := (n mod 64)%N in
  (v1 < 64 /\ v2 < 64 /\ v3 < 64 /\ v4 < 64 /\
   v1 * 4 + v2 / 16 = a /\
   (v2 mod 16) * 16 + v3 / 4 = b /\
   (v3 mod 4) * 64 + v4 = c)%N.
Proof.
  intros Ha Hb Hc -> v1 v2 v3 v4. subst v1 v2 v3 v4.
  repeat split; zify; Z.to_euclidean_division_equations; lia.
Qed.

Lemma bytes_of_to_N (bs : list byte) : bytes_of (map Byte.to_N bs) = Some bs.
Proof.
  unfold bytes_of. induction bs as [| b bs IH]; [reflexivity |].
  simpl. rewrite Byte.of_to_N; simpl. by rewrite IH.
Qed.

(** Decoding the encoding of some bytes gives the bytes back. *)
Lemma b64decode_b64encode (bs : list byte) :
  b64decode (b64encode bs) = Some bs.
Proof.
  revert bs. fix IH 1. intros [| a [| b [| c rest]]].
  - reflexivity.
  - pose proof (Byte.to_N_bounded a) as Ha.
    destruct (sextets (Byte.to_N a) 0 0 (Byte.to_N a * 65536)%N)
      as (H1 & H2 & _ & _ & Hbyte & _); [lia .. |].
    change (b64encode [a])
      with (String (digit (Byte.to_N a * 65536 / 262144))
              (String (digit ((Byte.to_N a * 65536 / 4096) mod 64)) "==")).
    cbn [b64decode]. rewrite !digit_value_digit by done.
    change (Ascii.eqb "=" "=") with true. cbv beta iota.
    rewrite Hbyte. apply (bytes_of_to_N [a]).
  - pose proof (Byte.to_N_bounded a) as Ha.
    pose proof (Byte.to_N_bounded b) as Hb.
    destruct (sextets (Byte.to_N a) (Byte.to_N b) 0
                (Byte.to_N a * 65536 + Byte.to_N b * 256)%N)
      as (H1 & H2 & H3 & _ & Hbyte1 & Hbyte2 & _); [lia .. |].
    change (b64encode [a; b])
      with (let n := (Byte.to_N a * 65536 + Byte.to_N b * 256)%N in
            String (digit (n / 262144))
              (String (digit ((n / 4096) mod 64))
                 (String (digit ((n / 64) mod 64)) "="))).
    cbv zeta. cbn [b64decode].
    rewrite !digit_value_digit, !digit_not_pad by done.
    change (Ascii.eqb "=" "=") with true. cbv beta iota.
    rewrite Hbyte1, Hbyte2. apply (bytes_of_to_N [a; b]).
  - pose proof (Byte.to_N_bounded a) as Ha.
    pose proof (Byte.to_N_bounded b) as Hb.
    pose proof (Byte.to_N_bounded c) as Hc.
    destruct (sextets (Byte.to_N a) (Byte.to_N b) (Byte.to_N c)
                (Byte.to_N a * 65536 + Byte.to_N b * 256 + Byte.to_N c)%N)
      as (H1 & H2 & H3 & H4 & Hbyte1 & Hbyte2 & Hbyte3); [lia .. |].
    change (b64encode (a :: b :: c :: rest))
      with (let n :=
              (Byte.to_N a * 65536 + Byte.to_N b * 256 + Byte.to_N c)%N in
            String (digit (n / 262144))
              (String (digit ((n / 4096) mod 64))
                 (String (digit ((n / 64) mod 64))
                    (String (digit (n mod 64)) (b64encode rest))))).
    cbv zeta. cbn [b64decode].
    rewrite !digit_value_digit, !digit_not_pad by done.
    rewrite (IH rest), Hbyte1, Hbyte2, Hbyte3.
    change (bytes_of [Byte.to_N a; Byte.to_N b; Byte.to_N c])
      with (bytes_of (map Byte.to_N [a; b; c])).
    by rewrite bytes_of_to_N.
Qed.

Lemma b64encode_inj (bs bs' : list byte) :
  b64encode bs = b64encode bs' -> bs = bs'.
Proof.
  intros Heq. apply (f_equal b64decode) in Heq.
  rewrite !b64decode_b64encode in Heq. by injection Heq.
Qed.

(** Four digits for every three bytes, the last group padded. *)
Lemma b64encode_length (bs : list byte) :
  String.length (b64encode bs) = (4 * ((length bs + 2) / 3))%nat.
Proof.
  revert bs. fix IH 1. intros [| a [| b [| c rest]]]; try reflexivity.
  change (String.length (b64encode (a :: b :: c :: rest)))
    with (S (S (S (S (String.length (b64encode rest)))))).
  rewrite (IH rest).
  change (length (a :: b :: c :: rest)) with (3 + length rest)%nat.
  replace (3 + length rest + 2)%nat with (1 * 3 + (length rest + 2))%nat by lia.
  rewrite Nat.div_add_l by lia. lia.
Qed.

End Base64Facts.

(** X6: the vision request carries the image whole: its [image_url] is the
    text [data:image/jpeg;base64,] followed by four base64 digits for every
    three bytes, from which the bytes of the image are decoded back, so two
    different images never give the same request; the media type is
    [image/jpeg] whatever the bytes are. *)
Theorem vision_request_carries_the_image (self : ImageStoryGenerator)
    (image_data : list byte) :
  exists encoded : string,
    and_then (getitem_key (json (vision_request self image_data)) "messages")
      (fun messages => and_then (getitem_index messages 0)
      (fun message => and_then (getitem_key message "content")
      (fun parts => and_then (getitem_index parts 1)
      (fun part => and_then (getitem_key part "image_url")
      (fun image_url => getitem_key image_url "url")))))
      = inr (VStr ("data:image/jpeg;base64," +:+ encoded)) /\
    b64decode encoded = Some image_data /\
    String.length encoded = (4 * ((length image_data + 2) / 3))%nat /\
    forall image_data' : list byte,
      vision_request self image_data' = vision_request self image_data ->
      image_data' = image_data.
Proof.
  exists (Base64.b64encode image_data).
  split; [reflexivity |].
  split; [apply b64decode_b64encode |].
  split; [apply b64encode_length |].
  intros image_data' Hsame.
  unfold vision_request, image_payload in Hsame.
  injection Hsame as Hurl.
  change (Base64.b64encode image_data' = Base64.b64encode image_data) in Hurl.
  by apply b64encode_inj.
Qed.

(** ** What is logged when a stage fails *)

(** X7: [process_image] logs at the level ERROR exactly when it fails,
    once, with the exception that made it fail: the one raised by the
    request, [HTTPError] for a status from 400 to 599, [JSONDecodeError]
    for a body that is not JSON, the [KeyError], [IndexError] or
    [TypeError] of the path into the body, [AttributeError] for a content
    that is not a string; a success logs no error. *)
Theorem process_image_logs_its_failure {B : Type}
    (respond : B -> request -> outcome * B) (s : B)
    (self : ImageStoryGenerator) (image_data : list byte) :
  error_logs (trace (run respond (process_image image_data self) s)) =
    let failed e := [("Error processing image: ", Some e)] in
    match (respond s (vision_request self image_data)).1 with
    | Raises e => failed e
    | Returns r =>
        if is_error_status (status_code r) then failed (HTTPError (status_code r))
        else
          match body r with
          | None => failed JSONDecodeError
          | Some result =>
              match message_content result with
              | inl e => failed e
              | inr (VStr _) => []
              | inr _ => failed AttributeError
              end
          end
    end.
Proof.
  rewrite process_image_run; simpl.
  destruct (respond s _) as [o s1]; simpl.
  destruct o as [e | r]; simpl; [reflexivity |].
  unfold raise_for_status, response_json.
  destruct (is_error_status (status_code r)); simpl; [reflexivity |].
  destruct (body r) as [result |]; simpl; [| reflexivity].
  destruct (message_content result) as [e | c]; simpl; [reflexivity |].
  destruct c; reflexivity.
Qed.

(** X8: for a length of at most 4300 decimal digits,
    [generate_story_from_image] logs the errors of its vision stage, then
    an error of its own exactly when the story request fails, with the
    exception that made it fail; a content that is not a string is no
    error there. *)
Theorem generate_story_logs_its_failure {B : Type}
    (respond : B -> request -> outcome * B) (s s1 : B)
    (self : ImageStoryGenerator) (image_data : list byte)
    (people_names : list string) (genre : string) (desired_length : Z)
    (image_content : list string) (t1 : list event) :
  Z.abs desired_length < PyRepr.int_str_limit ->
  run respond (process_image image_data self) s
    = (inr image_content, self, s1, t1) ->
  error_logs (trace (run respond
    (generate_story_from_image image_data people_names genre desired_length self) s))
  = error_logs t1 ++
    let failed e := [("Error generating story: ", Some e)] in
    match (respond s1
             (story_request self
                (prompt_for (PyStr.join ", " people_names) genre
                   desired_length image_content))).1 with
    | Raises e => failed e
    | Returns r =>
        if is_error_status (status_code r) then failed (HTTPError (status_code r))
        else
          match body r with
          | None => failed JSONDecodeError
          | Some result =>
              match message_content result with
              | inl e => failed e
              | inr _ => []
              end
          end
    end.
Proof.
  intros Hlimit Hvision.
  assert (forall t t' : list event,
            error_logs (t ++ t') = error_logs t ++ error_logs t') as Happ.
  { intros t t'. induction t as [| [lg [] msg exc | rq] t IH]; simpl;
      by rewrite ?IH. }
  rewrite (generate_story_run_rendered respond _ _ _ _ _ _ _ _ _ Hlimit Hvision).
  cbv zeta.
  destruct (respond s1 _) as [o s2]; simpl.
  assert (forall rq (tail : list (string * option exn)),
            (error_logs t1 ++ error_logs [EvPost rq]) ++ tail
            = error_logs t1 ++ tail) as Hpost.
  { intros rq tail. simpl. by rewrite app_nil_r. }
  destruct o as [e | r]; simpl.
  { unfold trace; simpl. by rewrite !Happ, Hpost. }
  unfold raise_for_status, response_json.
  destruct (is_error_status (status_code r)); simpl.
  { unfold trace; simpl. by rewrite !Happ, Hpost. }
  destruct (body r) as [result |]; simpl.
  2: { unfold trace; simpl. by rewrite !Happ, Hpost. }
  destruct (message_content result) as [e | c]; simpl; unfold trace; simpl.
  - by rewrite !Happ, Hpost.
  - rewrite Happ. simpl. reflexivity.
Qed.

(** Both stages fail: the vision response has no choice, the story request
    times out. *)
Lemma generate_story_logs_its_failure_witness :
  let script :=
    [Returns (Response 200 (Some (VDict [("choices", VList [])])));
     Raises (RequestException "timed out")] in
  let vision :=
    run Fixture.replay (process_image Fixture.jpeg Fixture.generator) script in
  Z.abs 100 < PyRepr.int_str_limit /\
  vision = (inr [], Fixture.generator, backend_after vision, trace vision) /\
  error_logs (trace (run Fixture.replay
    (generate_story_from_image Fixture.jpeg ["Alex"] "drama" 100
       Fixture.generator) script))
  = [("Error processing image: ", Some IndexError);
     ("Error generating story: ", Some (RequestException "timed out"))].
Proof.
  cbv zeta.
  set (script :=
    [Returns (Response 200 (Some (VDict [("choices", VList [])])));
     Raises (RequestException "timed out")]).
  set (vision :=
    run Fixture.replay (process_image Fixture.jpeg Fixture.generator) script).
  assert (Z.abs 100 < PyRepr.int_str_limit) as Hlimit
    by (vm_compute; reflexivity).
  assert (vision = (inr [], Fixture.generator, backend_after vision, trace vision))
    as Hvision by reflexivity.
  split; [exact Hlimit |]. split; [exact Hvision |].
  exact (generate_story_logs_its_failure Fixture.replay script
           (backend_after vision) Fixture.generator Fixture.jpeg ["Alex"]
           "drama" 100 [] (trace vision) Hlimit Hvision).
Defined.

(** ** The credential and the status of a response *)

(** X9: a generator that [main] constructs holds the credential of the
    environment, and every request of either method goes to the completions
    endpoint with the JSON content type and that credential as bearer
    token. *)
Theorem requests_carry_the_credential {B : Type}
    (respond : B -> request -> outcome * B) (s : B)
    (env : gmap string string) (self : ImageStoryGenerator)
    (image_data : list byte) (people_names : list string) (genre : string)
    (desired_length : Z) :
  main env = inr self ->
  exists credential : string,
    env !! "OPENAI_API_KEY" = Some credential /\
    api_key self = Some credential /\
    let sent rq :=
      url rq = "https://api.openai.com/v1/chat/completions" /\
      headers rq = bearer_headers credential in
    Forall sent
      (requests_of (trace (run respond (process_image image_data self) s))) /\
    Forall sent
      (requests_of (trace (run respond
        (generate_story_from_image image_data people_names genre desired_length
           self) s))).
Proof.
  unfold main, getenv. intros Hmain.
  destruct (env !! "OPENAI_API_KEY") as [credential |] eqn:Hkey; [| done].
  injection Hmain as <-. exists credential.
  assert (api_key (__init__ env {| logger_name := "__main__" |}) = Some credential)
    as Hself by (unfold __init__, getenv; simpl; exact Hkey).
  split; [done |]. split; [done |].
  remember (__init__ env {| logger_name := "__main__" |}) as self eqn:Hinit.
  clear Hinit.
  destruct (process_image_total respond self image_data s)
    as (ds & s1 & t1 & Hvision & _ & Hrequests).
  assert (url (vision_request self image_data) = completions_url /\
          headers (vision_request self image_data) = bearer_headers credential)
    as Hfirst by (unfold vision_request; simpl; by rewrite Hself).
  split.
  - rewrite Hvision. unfold trace; simpl. rewrite Hrequests.
    constructor; [exact Hfirst | constructor].
  - destruct (generate_story_requests_any respond self image_data people_names
                genre desired_length s) as (later & -> & Hlater).
    constructor; [exact Hfirst |].
    destruct Hlater as [-> | [prompt ->]]; [constructor |].
    constructor; [| constructor].
    unfold story_request; simpl. by rewrite Hself.
Qed.

(** The environment of the fixtures. *)
Lemma requests_carry_the_credential_witness :
  main Fixture.env = inr Fixture.generator /\
  Forall (fun rq => headers rq = bearer_headers "sk-test")
    (requests_of (trace (run (Fixture.always (Returns (Response 500 None)))
      (generate_story_from_image Fixture.jpeg ["Alex"] "drama" 100
         Fixture.generator) tt))).
Proof.
  assert (main Fixture.env = inr Fixture.generator) as Hmain by reflexivity.
  split; [exact Hmain |].
  destruct (requests_carry_the_credential
              (Fixture.always (Returns (Response 500 None))) tt Fixture.env
              Fixture.generator Fixture.jpeg ["Alex"] "drama" 100 Hmain)
    as (credential & Hkey & _ & _ & Hsent).
  assert (credential = "sk-test") as -> by (by injection Hkey).
  eapply Forall_impl; [exact Hsent |]. by intros rq [_ Hheaders].
Defined.

(** X10: the constructor reads the environment itself and checks nothing:
    built from an environment without [OPENAI_API_KEY], the generator has
    no credential and its requests are still posted, with the bearer token
    [None]. *)
Theorem init_without_credential_posts_none {B : Type}
    (respond : B -> request -> outcome * B) (s : B)
    (env : gmap string string) (lg : Logger) (image_data : list byte) :
  env !! "OPENAI_API_KEY" = None ->
  api_key (__init__ env lg) = None /\
  exists rq : request,
    requests_of (trace (run respond (process_image image_data (__init__ env lg)) s))
      = [rq] /\
    headers rq = bearer_headers "None".
Proof.
  intros Habsent.
  assert (api_key (__init__ env lg) = None) as Hself
    by (unfold __init__, getenv; simpl; exact Habsent).
  split; [exact Hself |].
  exists (vision_request (__init__ env lg) image_data). split.
  - destruct (process_image_total respond (__init__ env lg) image_data s)
      as (ds & s1 & t1 & -> & _ & Hrequests).
    exact Hrequests.
  - unfold vision_request; simpl. unfold getenv. by rewrite Habsent.
Qed.

(** The empty environment. *)
Lemma init_without_credential_posts_none_witness :
  (∅ : gmap string string) !! "OPENAI_API_KEY" = None /\
  api_key (__init__ ∅ {| logger_name := "__main__" |}) = None.
Proof.
  assert ((∅ : gmap string string) !! "OPENAI_API_KEY" = None) as Habsent
    by reflexivity.
  split; [exact Habsent |].
  exact (proj1 (init_without_credential_posts_none
                  (Fixture.always (Returns (Response 500 None))) tt ∅
                  {| logger_name := "__main__" |} [] Habsent)).
Defined.

(** X11: a response is refused for its status exactly from 400 to 599:
    with a body of the expected shape, [process_image] returns the empty
    list for those statuses and the lines of the content for every other
    status, 204 or 302 as well as 200. *)
Theorem process_image_status_bounds {B : Type}
    (respond : B -> request -> outcome * B) (s s1 : B)
    (self : ImageStoryGenerator) (image_data : list byte)
    (r : response) (result : value) (content : string) :
  respond s (vision_request self image_data) = (Returns r, s1) ->
  body r = Some result ->
  message_content result = inr (VStr content) ->
  (400 <= status_code r < 600 ->
   returned (run respond (process_image image_data self) s) = inr []) /\
  (status_code r < 400 \/ 600 <= status_code r ->
   returned (run respond (process_image image_data self) s)
     = inr (PyStr.split PyStr.LF content)).
Proof.
  intros Hrespond Hbody Hcontent.
  rewrite process_image_run; simpl. rewrite Hrespond.
  unfold content_of, raise_for_status, response_json, is_error_status.
  rewrite Hbody. split.
  - intros [Hlow Hhigh].
    apply Z.leb_le in Hlow. apply Z.ltb_lt in Hhigh.
    by rewrite Hlow, Hhigh.
  - intros [Hlow | Hhigh].
    + apply Z.leb_gt in Hlow. rewrite Hlow; simpl. by rewrite Hcontent.
    + apply Z.ltb_ge in Hhigh. rewrite Hhigh, andb_false_r; simpl.
      by rewrite Hcontent.
Qed.

(** A redirect answered with a body of the expected shape. *)
Lemma process_image_status_bounds_witness :
  let result := Fixture.completion (VStr Fixture.two_people) in
  let r := Response 302 (Some result) in
  let respond := Fixture.always (Returns r) in
  respond tt (vision_request Fixture.generator Fixture.jpeg) = (Returns r, tt) /\
  body r = Some result /\
  message_content result = inr (VStr Fixture.two_people) /\
  returned (run respond (process_image Fixture.jpeg Fixture.generator) tt)
    = inr ["A tall man in a red jacket"; "A woman with short black hair"].
Proof.
  cbv zeta. do 3 (split; [reflexivity |]).
  apply (proj2 (process_image_status_bounds
    (Fixture.always (Returns (Response 302
       (Some (Fixture.completion (VStr Fixture.two_people)))))) tt tt
    Fixture.generator Fixture.jpeg
    (Response 302 (Some (Fixture.completion (VStr Fixture.two_people))))
    (Fixture.completion (VStr Fixture.two_people)) Fixture.two_people
    eq_refl eq_refl eq_refl)).
  left. simpl. lia.
Defined.

(** ** The callbacks of the front end *)

Section FrontEnd.
Context {B : Type} (respond : B -> request -> outcome * B).

Lemma ui_requests_methods (t : list event) (rest : list ui_event) :
  ui_requests (map Method t ++ rest) = requests_of t ++ ui_requests rest.
Proof.
  induction t as [| [lg lv msg exc | rq] t IH]; simpl; [done | done |].
  by rewrite IH.
Qed.

Lemma ui_output_methods (t : list event) (rest : list ui_event) :
  ui_output (map Method t ++ rest) = ui_output rest.
Proof. induction t as [| e t IH]; simpl; done. Qed.

(** One run of [on_button_click] on an upload: the vision stage on the
    first file, then the message or the form and the click handler. *)
Lemma on_button_click_run (self : ImageStoryGenerator) (s s1 : B)
    (name : string) (file : UploadedFile)
    (others : list (string * UploadedFile)) (descriptions : list string)
    (t1 : list event) :
  run respond (process_image (content file) self) s
    = (inr descriptions, self, s1, t1) ->
  run_ui respond (on_button_click ((name, file) :: others)) self s =
    (inr tt, self, s1,
     map Method t1 ++
     match descriptions with
     | [] => [Printed "Failed to process image."]
     | _ =>
         [Displayed (NameForm (map name_input descriptions));
          ClickHandler (content file) (map name_input descriptions)]
     end).
Proof.
  intros Hvision. unfold on_button_click. cbn [run_ui]. rewrite Hvision.
  destruct descriptions; reflexivity.
Qed.

(** A text passes the test [value.strip()] exactly when it holds a
    character that is not white space. *)
Lemma truthy_strip (v : string) : truthy (strip v) = negb (all_spaces v).
Proof.
  unfold strip. induction v as [| c v IH]; [reflexivity |].
  simpl. destruct (isspace c) eqn:Hc; simpl; [exact IH |].
  rewrite Hc. by destruct (rstrip v).
Qed.

Lemma people_names_filter (name_inputs : list Text) :
  List.filter (fun w => truthy (strip (text w))) name_inputs
    = List.filter (fun w => negb (all_spaces (text w))) name_inputs.
Proof.
  induction name_inputs as [| w ws IH]; simpl; [done |].
  by rewrite truthy_strip, IH.
Qed.

(** One run of [on_generate_story_click]: the message when no name is
    left, else the call of [generate_story_from_image] and the display of
    what it returned. *)
Lemma on_generate_story_click_run (self : ImageStoryGenerator) (s s2 : B)
    (uploaded_image : list byte) (name_inputs : list Text) (genre : string)
    (desired_length : Z) (story : value) (t : list event) :
  let people_names :=
    map text (List.filter (fun w => negb (all_spaces (text w))) name_inputs) in
  people_names <> [] ->
  run respond
    (generate_story_from_image uploaded_image people_names genre
       desired_length self) s
    = (inr story, self, s2, t) ->
  run_ui respond
    (on_generate_story_click uploaded_image name_inputs genre desired_length)
    self s
  = (inr tt, self, s2, map Method t ++ [Displayed (StoryHTML story)]).
Proof.
  intros people_names Hnames Hstory.
  unfold on_generate_story_click. rewrite people_names_filter.
  fold people_names. destruct people_names as [| n ns] eqn:Hpeople; [done |].
  cbn [run_ui]. rewrite Hstory. reflexivity.
Qed.

(** The same when no name is left. *)
Lemma on_generate_story_click_run_blank (self : ImageStoryGenerator) (s : B)
    (uploaded_image : list byte) (name_inputs : list Text) (genre : string)
    (desired_length : Z) :
  names_of name_inputs = [] ->
  run_ui respond
    (on_generate_story_click uploaded_image name_inputs genre desired_length)
    self s
  = (inr tt, self, s, [Printed "Please provide valid names."]).
Proof.
  intros Hblank. unfold on_generate_story_click.
  rewrite people_names_filter. fold (names_of name_inputs).
  by rewrite Hblank.
Qed.

(** A form has a name exactly when its handler passes a name on. *)
Lemma named_names_of (name_inputs : list Text) :
  named name_inputs = true <-> names_of name_inputs <> [].
Proof.
  unfold named, names_of.
  induction name_inputs as [| w ws IH]; simpl; [done |].
  destruct (all_spaces (text w)); simpl; [exact IH | done].
Qed.

(** Every length of the slider is one that [str] renders. *)
Lemma slider_range_renders (desired_length : Z) :
  in_slider_range desired_length ->
  Z.abs desired_length < PyRepr.int_str_limit.
Proof.
  unfold in_slider_range, length_min, length_max. intros Hrange.
  assert (500 < PyRepr.int_str_limit) as Hlimit by (vm_compute; reflexivity).
  lia.
Qed.

Lemma ui_requests_app (t t' : list ui_event) :
  ui_requests (t ++ t') = ui_requests t ++ ui_requests t'.
Proof.
  induction t as [| [[lg lv msg exc | rq] | line | w | img ws | e] t IH];
    simpl; by rewrite ?IH.
Qed.

Lemma stories_app (t t' : list ui_event) :
  stories (t ++ t') = stories t ++ stories t'.
Proof.
  induction t as [| [ev | line | [ws | story] | img ws | e] t IH];
    simpl; by rewrite ?IH.
Qed.

Lemma tracebacks_app (t t' : list ui_event) :
  tracebacks (t ++ t') = tracebacks t ++ tracebacks t'.
Proof.
  induction t as [| [ev | line | w | img ws | e] t IH]; simpl; by rewrite ?IH.
Qed.

Lemma registered_app (t t' : list ui_event) :
  registered (t ++ t') = registered t ++ registered t'.
Proof.
  induction t as [| [ev | line | w | img ws | e] t IH]; simpl; by rewrite ?IH.
Qed.

Lemma stories_methods (t : list event) : stories (map Method t) = [].
Proof. induction t as [| e t IH]; simpl; done. Qed.

Lemma tracebacks_methods (t : list event) : tracebacks (map Method t) = [].
Proof. induction t as [| e t IH]; simpl; done. Qed.

Lemma registered_methods (t : list event) : registered (map Method t) = [].
Proof. induction t as [| e t IH]; simpl; done. Qed.

(** One run of [on_button_click], whatever the upload: it returns, leaves
    the generator as it was and registers at most one handler. *)
Lemma on_button_click_total (self : ImageStoryGenerator) (s : B)
    (file_upload_value : list (string * UploadedFile)) :
  exists (s1 : B) (t : list ui_event),
    run_ui respond (on_button_click file_upload_value) self s
      = (inr tt, self, s1, t) /\
    tracebacks t = [] /\
    registered t =
      match file_upload_value with
      | [] => []
      | (_, file) :: _ =>
          match returned (run respond (process_image (content file) self) s) with
          | inr (d :: ds) => [(content file, map name_input (d :: ds))]
          | _ => []
          end
      end.
Proof.
  destruct file_upload_value as [| [name file] others].
  - exists s, [Printed "Please upload an image."]. by repeat split.
  - destruct (process_image_total respond self (content file) s)
      as (ds & s1 & t1 & Hvision & _ & _).
    rewrite (on_button_click_run _ _ _ _ _ _ _ _ Hvision), Hvision.
    eexists _, _. split; [reflexivity |].
    rewrite tracebacks_app, registered_app, tracebacks_methods,
      registered_methods.
    unfold returned; simpl. by destruct ds.
Qed.

(** One run of a click handler with a length that [str] renders: it
    returns and leaves the generator as it was; a handler with a name posts
    two requests and displays one story, a handler without one posts and
    displays nothing. *)
Lemma on_generate_story_click_total (self : ImageStoryGenerator) (s : B)
    (uploaded_image : list byte) (name_inputs : list Text) (genre : string)
    (desired_length : Z) :
  Z.abs desired_length < PyRepr.int_str_limit ->
  exists (s2 : B) (t : list ui_event),
    run_ui respond
      (on_generate_story_click uploaded_image name_inputs genre desired_length)
      self s
      = (inr tt, self, s2, t) /\
    tracebacks t = [] /\
    length (ui_requests t) = (if named name_inputs then 2 else 0)%nat /\
    length (stories t) = (if named name_inputs then 1 else 0)%nat.
Proof.
  intros Hlimit.
  destruct (named name_inputs) eqn:Hnamed.
  - apply named_names_of in Hnamed.
    destruct (generate_story_returns respond self uploaded_image
                (names_of name_inputs) genre desired_length s Hlimit)
      as (story & s2 & t & Hstory).
    destruct (process_image_total respond self uploaded_image s)
      as (ds & s1 & t1 & Hvision & _ & _).
    pose proof (generate_story_requests respond self uploaded_image
                  (names_of name_inputs) genre desired_length s s1 ds t1
                  Hlimit Hvision) as Hrequests.
    rewrite Hstory in Hrequests. unfold trace in Hrequests; simpl in Hrequests.
    rewrite (on_generate_story_click_run _ _ _ _ _ _ _ _ _ Hnamed Hstory).
    eexists _, _. split; [reflexivity |].
    rewrite tracebacks_app, ui_requests_methods, stories_app,
      tracebacks_methods, stories_methods, Hrequests.
    by repeat split.
  - assert (names_of name_inputs = []) as Hblank.
    { destruct (names_of name_inputs) eqn:Hnames; [done |].
      assert (named name_inputs = true) as Htrue
        by (apply named_names_of; by rewrite Hnames).
      congruence. }
    rewrite (on_generate_story_click_run_blank _ _ _ _ _ _ Hblank).
    eexists _, _. by repeat split.
Qed.

(** A click with a length that [str] renders runs every handler. *)
Lemma dispatch_total (handlers : list (list byte * list Text))
    (genre : string) (desired_length : Z) (self : ImageStoryGenerator) (s : B) :
  Z.abs desired_length < PyRepr.int_str_limit ->
  exists (s' : B) (t : list ui_event),
    dispatch respond handlers genre desired_length self s = (self, s', t) /\
    tracebacks t = [] /\
    length (ui_requests t)
      = (2 * length (List.filter (fun h => named h.2) handlers))%nat /\
    length (stories t)
      = length (List.filter (fun h => named h.2) handlers).
Proof.
  intros Hlimit. revert s.
  induction handlers as [| [uploaded_image name_inputs] rest IH]; intros s.
  - exists s, []. by repeat split.
  - destruct (on_generate_story_click_total self s uploaded_image name_inputs
                genre desired_length Hlimit)
      as (s1 & t1 & Hrun & Htb1 & Hrq1 & Hst1).
    destruct (IH s1) as (s2 & t2 & Hrest & Htb2 & Hrq2 & Hst2).
    cbn [dispatch]. rewrite Hrun, Hrest. cbn [shown_traceback app].
    eexists _, _. split; [reflexivity |].
    rewrite tracebacks_app, ui_requests_app, stories_app, !length_app,
      Htb1, Htb2, Hrq1, Hrq2, Hst1, Hst2.
    cbn [List.filter snd]. destruct (named name_inputs); simpl; by repeat split; lia.
Qed.

(** The forms behind the handlers: the image and the labels of the inputs
    of each. Typing a name, selecting a genre and moving the slider leave
    them, the generator and the backend as they are. *)
Lemma type_name_forms (form input : nat) (name : string)
    (handlers : list (list byte * list Text)) :
  forms (type_name form input name handlers) = forms handlers.
Proof.
  unfold type_name, forms. revert form.
  induction handlers as [| [uploaded_image name_inputs] rest IH];
    intros [| form]; simpl; [done | done | | f_equal; apply IH].
  f_equal. f_equal. clear. revert input.
  induction name_inputs as [| w ws IH]; intros [| input]; simpl;
    [done | done | done | f_equal; apply IH].
Qed.

Lemma set_length_in_range (desired_length : Z) :
  in_slider_range (set_length desired_length).
Proof. unfold in_slider_range, set_length, length_min, length_max. lia. Qed.

Lemma step_input (a : action) (fe : FrontEnd) (s : B) :
  is_input a ->
  exists fe' : FrontEnd,
    step respond a fe s = (fe', s, []) /\
    image_story_generator fe' = image_story_generator fe /\
    forms (click_handlers fe') = forms (click_handlers fe) /\
    (in_slider_range (length_value fe) -> in_slider_range (length_value fe')).
Proof.
  destruct a as [v | form input name | genre | desired_length |];
    [done | | | | done]; intros _; eexists; (split; [reflexivity |]);
    cbn [image_story_generator click_handlers length_value].
  - split; [done |]. split; [apply type_name_forms | done].
  - split; [done |]. split; done.
  - split; [done |]. split; [done |]. intros _. apply set_length_in_range.
Qed.

Lemma session_input (typing : list action) (fe : FrontEnd) (s : B) :
  Forall is_input typing ->
  exists fe' : FrontEnd,
    session respond typing fe s = (fe', s, []) /\
    image_story_generator fe' = image_story_generator fe /\
    forms (click_handlers fe') = forms (click_handlers fe) /\
    (in_slider_range (length_value fe) -> in_slider_range (length_value fe')).
Proof.
  intros Htyping. revert fe.
  induction Htyping as [| a typing Ha _ IH]; intros fe.
  - exists fe. split; [done |]. split; [done |]. split; done.
  - destruct (step_input a fe s Ha) as (fe1 & Hstep & Hself1 & Hforms1 & Hrange1).
    destruct (IH fe1) as (fe2 & Hrest & Hself2 & Hforms2 & Hrange2).
    exists fe2. cbn [session]. rewrite Hstep, Hrest.
    split; [reflexivity |]. split; [congruence |]. split; [congruence |].
    auto.
Qed.

(** One step of a session whose slider is in its range: the generator
    stays, the slider stays in its range and no callback raises. *)
Lemma step_invariant (a : action) (fe : FrontEnd) (s : B) :
  in_slider_range (length_value fe) ->
  let after := step respond a fe s in
  image_story_generator after.1.1 = image_story_generator fe /\
  in_slider_range (length_value after.1.1) /\
  tracebacks after.2 = [].
Proof.
  intros Hrange after. subst after.
  destruct a as [v | form input name | genre | desired_length |]; simpl.
  - destruct (on_button_click_total (image_story_generator fe) s v)
      as (s1 & t & -> & Htb & _).
    simpl. by rewrite app_nil_r.
  - done.
  - done.
  - split; [done |]. split; [apply set_length_in_range | done].
  - destruct (dispatch_total (click_handlers fe) (genre_value fe)
                (length_value fe) (image_story_generator fe) s
                (slider_range_renders _ Hrange))
      as (s' & t & -> & Htb & _).
    done.
Qed.

End FrontEnd.

(** X12: without an uploaded file [on_button_click] prints its message and
    posts nothing; with a file whose vision stage fails it posts the one
    vision request, prints the failure message, and neither displays the
    name form nor registers a click handler. *)
Theorem on_button_click_without_descriptions {B : Type}
    (respond : B -> request -> outcome * B) (s : B)
    (self : ImageStoryGenerator) (name : string) (file : UploadedFile)
    (others : list (string * UploadedFile)) :
  vision_failure (respond s (vision_request self (content file))).1 ->
  run_ui respond (on_button_click []) self s
    = (inr tt, self, s, [Printed "Please upload an image."]) /\
  let failed :=
    run_ui respond (on_button_click ((name, file) :: others)) self s in
  failed.1.1.1 = inr tt /\
  ui_requests failed.2 = [vision_request self (content file)] /\
  ui_output failed.2 = [Printed "Failed to process image."].
Proof.
  intros Hfail. split; [reflexivity |].
  destruct (process_image_total respond self (content file) s)
    as (ds & s1 & t1 & Hvision & _ & Hrequests).
  assert (ds = []) as ->.
  { apply (process_image_empty_iff_failure respond) in Hfail.
    rewrite Hvision in Hfail. by injection Hfail. }
  cbv zeta. rewrite (on_button_click_run respond _ _ _ _ _ _ _ _ Hvision).
  simpl. rewrite ui_requests_methods, ui_output_methods, Hrequests.
  by repeat split.
Qed.

(** The backend rejects the image with status 400. *)
Lemma on_button_click_without_descriptions_witness :
  let respond := Fixture.always (Returns (Response 400 None)) in
  vision_failure (respond tt (vision_request Fixture.generator Fixture.jpeg)).1 /\
  ui_output (run_ui respond (on_button_click UiFixture.upload)
               Fixture.generator tt).2
    = [Printed "Failed to process image."].
Proof.
  cbv zeta.
  assert (vision_failure
            (Fixture.always (Returns (Response 400 None)) tt
               (vision_request Fixture.generator Fixture.jpeg)).1) as Hfail
    by (left; reflexivity).
  split; [exact Hfail |].
  exact (proj2 (proj2 (proj2 (on_button_click_without_descriptions
           (Fixture.always (Returns (Response 400 None))) tt
           Fixture.generator "photo.jpg" {| content := Fixture.jpeg |} []
           Hfail)))).
Defined.

(** X13: on a successful vision response [on_button_click] uses the first
    uploaded file only, posts one request, displays one empty name input
    per entry of the split content, in order, labelled with the entry (a
    blank line gives an input with an empty label), and registers one click
    handler that holds the image and these inputs. *)
Theorem on_button_click_builds_name_form {B : Type}
    (respond : B -> request -> outcome * B) (s s1 : B)
    (self : ImageStoryGenerator) (name : string) (file : UploadedFile)
    (others : list (string * UploadedFile))
    (r : response) (result : value) (text_content : string) :
  respond s (vision_request self (content file)) = (Returns r, s1) ->
  is_error_status (status_code r) = false ->
  body r = Some result ->
  message_content result = inr (VStr text_content) ->
  let descriptions := PyStr.split PyStr.LF text_content in
  let name_inputs := map name_input descriptions in
  let shown :=
    run_ui respond (on_button_click ((name, file) :: others)) self s in
  ui_requests shown.2 = [vision_request self (content file)] /\
  ui_output shown.2
    = [Displayed (NameForm name_inputs);
       ClickHandler (content file) name_inputs] /\
  map description name_inputs = descriptions /\
  Forall (fun w => text w = EmptyString) name_inputs /\
  length name_inputs =
    S (length (filter (fun c => c = PyStr.LF)
                 (String.list_ascii_of_string text_content))).
Proof.
  intros Hrespond Hstatus Hbody Hcontent descriptions name_inputs shown.
  destruct (process_image_total respond self (content file) s)
    as (ds & s1' & t1 & Hvision & _ & Hrequests).
  assert (ds = descriptions) as ->.
  { pose proof (f_equal returned Hvision) as Hreturned.
    rewrite process_image_run in Hreturned; simpl in Hreturned.
    rewrite Hrespond in Hreturned.
    rewrite (content_of_success r result (VStr text_content)) in Hreturned
      by done.
    by injection Hreturned. }
  subst shown. rewrite (on_button_click_run respond _ _ _ _ _ _ _ _ Hvision).
  simpl. rewrite ui_requests_methods, ui_output_methods, Hrequests.
  pose proof (split_not_nil PyStr.LF text_content) as Hnil.
  pose proof (split_length PyStr.LF text_content) as Hlength.
  fold descriptions in Hnil, Hlength.
  subst name_inputs. clearbody descriptions.
  destruct descriptions as [| d ds]; [done |].
  split; [reflexivity |].
  split; [reflexivity |].
  split; [rewrite map_map; apply map_id |].
  split; [apply Forall_map; by apply Forall_forall |].
  by rewrite length_map.
Qed.

(** A response with a blank line between two descriptions: three inputs. *)
Lemma on_button_click_builds_name_form_witness :
  let result := Fixture.completion (VStr Fixture.blank_line) in
  let r := Response 200 (Some result) in
  let respond := Fixture.always (Returns r) in
  respond tt (vision_request Fixture.generator Fixture.jpeg) = (Returns r, tt) /\
  is_error_status (status_code r) = false /\
  body r = Some result /\
  message_content result = inr (VStr Fixture.blank_line) /\
  ui_output (run_ui respond (on_button_click UiFixture.upload)
               Fixture.generator tt).2
    = [Displayed (NameForm
         [name_input "A tall man"; name_input EmptyString; name_input "A woman"]);
       ClickHandler Fixture.jpeg
         [name_input "A tall man"; name_input EmptyString; name_input "A woman"]].
Proof.
  cbv zeta. do 4 (split; [reflexivity |]).
  exact (proj1 (proj2 (on_button_click_builds_name_form
    (Fixture.always (Returns (Response 200
       (Some (Fixture.completion (VStr Fixture.blank_line)))))) tt tt
    Fixture.generator "photo.jpg" {| content := Fixture.jpeg |} []
    (Response 200 (Some (Fixture.completion (VStr Fixture.blank_line))))
    (Fixture.completion (VStr Fixture.blank_line)) Fixture.blank_line
    eq_refl eq_refl eq_refl eq_refl))).
Defined.

(** X14: when every name input is empty or holds white space only,
    [on_generate_story_click] prints its message and does nothing else:
    no request is posted and nothing is displayed. *)
Theorem on_generate_story_click_without_names {B : Type}
    (respond : B -> request -> outcome * B) (s : B)
    (self : ImageStoryGenerator) (uploaded_image : list byte)
    (name_inputs : list Text) (genre : string) (desired_length : Z) :
  Forall (fun w => all_spaces (text w) = true) name_inputs ->
  run_ui respond
    (on_generate_story_click uploaded_image name_inputs genre desired_length)
    self s
  = (inr tt, self, s, [Printed "Please provide valid names."]).
Proof.
  intros Hblank. unfold on_generate_story_click.
  rewrite people_names_filter.
  assert (List.filter (fun w => negb (all_spaces (text w))) name_inputs = [])
    as ->; [| reflexivity].
  induction Hblank as [| w ws Hw Hws IH]; simpl; [done |].
  by rewrite Hw.
Qed.

(** One input is empty, the other holds a tab and a space. *)
Lemma on_generate_story_click_without_names_witness :
  Forall (fun w => all_spaces (text w) = true) UiFixture.all_blank /\
  run_ui Fixture.replay
    (on_generate_story_click Fixture.jpeg UiFixture.all_blank "mystery" 150)
    Fixture.generator []
  = (inr tt, Fixture.generator, [], [Printed "Please provide valid names."]).
Proof.
  assert (Forall (fun w => all_spaces (text w) = true) UiFixture.all_blank)
    as Hblank by (repeat constructor).
  split; [exact Hblank |].
  exact (on_generate_story_click_without_names Fixture.replay []
           Fixture.generator Fixture.jpeg UiFixture.all_blank "mystery" 150
           Hblank).
Defined.

(** X15: with at least one name input that holds more than white space
    and a length within the range of the slider, from 100 to 500,
    [on_generate_story_click] passes the texts of those inputs, as typed
    and in order, to [generate_story_from_image] with the image of the
    upload, which posts two requests, and displays as the story whatever
    the call returned: the error text of a failed story request is
    displayed like a story. *)
Theorem on_generate_story_click_displays_what_is_returned {B : Type}
    (respond : B -> request -> outcome * B) (s : B)
    (self : ImageStoryGenerator) (uploaded_image : list byte)
    (name_inputs : list Text) (genre : string) (desired_length : Z) :
  let people_names :=
    map text (List.filter (fun w => negb (all_spaces (text w))) name_inputs) in
  people_names <> [] ->
  in_slider_range desired_length ->
  let call :=
    run respond
      (generate_story_from_image uploaded_image people_names genre
         desired_length self) s in
  let clicked :=
    run_ui respond
      (on_generate_story_click uploaded_image name_inputs genre desired_length)
      self s in
  exists story : value,
    returned call = inr story /\
    ui_output clicked.2 = [Displayed (StoryHTML story)] /\
    ui_requests clicked.2 = requests_of (trace call) /\
    length (ui_requests clicked.2) = 2%nat /\
    (length people_names <= length name_inputs)%nat /\
    (returned call = inr (VStr "Error generating story.") ->
     ui_output clicked.2
       = [Displayed (StoryHTML (VStr "Error generating story."))]).
Proof.
  intros people_names Hnames Hrange call clicked.
  pose proof (slider_range_renders desired_length Hrange) as Hlimit.
  destruct (generate_story_returns respond self uploaded_image people_names genre
              desired_length s Hlimit) as (story & s2 & t & Hstory).
  destruct (process_image_total respond self uploaded_image s)
    as (ds & s1 & t1 & Hvision & _ & _).
  pose proof (generate_story_requests respond self uploaded_image people_names
                genre desired_length s s1 ds t1 Hlimit Hvision) as Hrequests.
  subst clicked call.
  rewrite (on_generate_story_click_run respond _ _ _ _ _ _ _ _ _ Hnames Hstory).
  fold people_names in Hstory |- *.
  rewrite Hstory in Hrequests |- *.
  unfold returned, trace in Hrequests |- *. cbn [fst snd] in Hrequests |- *.
  rewrite ui_requests_methods, ui_output_methods.
  cbn [ui_requests ui_output]. rewrite app_nil_r, Hrequests.
  exists story. split; [reflexivity |]. split; [reflexivity |].
  split; [reflexivity |]. split; [reflexivity |]. split.
  - subst people_names. rewrite length_map. apply List.filter_length_le.
  - by intros [= ->].
Qed.

(** The second input holds a name between spaces; the story request is
    refused with status 500. *)
Lemma on_generate_story_click_displays_what_is_returned_witness :
  let script :=
    [Fixture.ok (VStr Fixture.two_people); Returns (Response 500 None)] in
  map text (List.filter (fun w => negb (all_spaces (text w)))
              UiFixture.second_named) = [" Jamie "] /\
  [" Jamie "] <> ([] : list string) /\
  in_slider_range 150 /\
  ui_output (run_ui Fixture.replay
    (on_generate_story_click Fixture.jpeg UiFixture.second_named "mystery" 150)
    Fixture.generator script).2
  = [Displayed (StoryHTML (VStr "Error generating story."))].
Proof.
  cbv zeta.
  assert (map text (List.filter (fun w => negb (all_spaces (text w)))
                      UiFixture.second_named) <> []) as Hnames by discriminate.
  assert (in_slider_range 150) as Hrange
    by (unfold in_slider_range, length_min, length_max; lia).
  split; [reflexivity |]. split; [discriminate |]. split; [exact Hrange |].
  destruct (on_generate_story_click_displays_what_is_returned Fixture.replay
              [Fixture.ok (VStr Fixture.two_people); Returns (Response 500 None)]
              Fixture.generator Fixture.jpeg UiFixture.second_named "mystery"
              150 Hnames Hrange)
    as (story & _ & _ & _ & _ & _ & Herror).
  apply Herror. reflexivity.
Defined.

(** ** A session of the front end *)

(** X16: in a session whose button has no handler yet, an upload, names
    typed into the form and a click describe the image twice: the upload
    shows the form and registers the one handler, and when a name has been
    typed the three requests of the session are the vision request of the
    upload, the same vision request again and the story request, whose
    prompt holds the names typed, the genre and the length of the widgets
    and the descriptions of the second answer, not those the name inputs
    were made for. *)
Theorem upload_then_click_describes_the_image_twice {B : Type}
    (respond : B -> request -> outcome * B) (s s1 s2 : B)
    (fe : FrontEnd) (name : string) (file : UploadedFile)
    (others : list (string * UploadedFile)) (typing : list action)
    (shown told : list string) (t1 t2 : list event) :
  let self := image_story_generator fe in
  click_handlers fe = [] ->
  in_slider_range (length_value fe) ->
  run respond (process_image (content file) self) s
    = (inr shown, self, s1, t1) ->
  shown <> [] ->
  run respond (process_image (content file) self) s1
    = (inr told, self, s2, t2) ->
  Forall is_input typing ->
  let uploaded := step respond (ValueChanged ((name, file) :: others)) fe s in
  let typed := session respond typing uploaded.1.1 uploaded.1.2 in
  let clicked := step respond ButtonClicked typed.1.1 typed.1.2 in
  ui_output uploaded.2
    = [Displayed (NameForm (map name_input shown));
       ClickHandler (content file) (map name_input shown)] /\
  exists name_inputs : list Text,
    click_handlers typed.1.1 = [(content file, name_inputs)] /\
    map description name_inputs = shown /\
    (named name_inputs = true ->
     ui_requests (uploaded.2 ++ typed.2 ++ clicked.2)
       = [vision_request self (content file);
          vision_request self (content file);
          story_request self
            (prompt_for (PyStr.join ", " (names_of name_inputs))
               (genre_value typed.1.1) (length_value typed.1.1) told)]).
Proof.
  intros self Hfresh Hrange Hshown Hne Htold Htyping uploaded typed clicked.
  destruct (process_image_total respond self (content file) s)
    as (ds & s1' & t1' & Hvision & _ & Hfirst).
  rewrite Hshown in Hvision. injection Hvision as <- <- <-.
  assert (uploaded =
    ({| image_story_generator := self;
        genre_value := genre_value fe;
        length_value := length_value fe;
        click_handlers := [(content file, map name_input shown)] |},
     s1,
     map Method t1 ++
       [Displayed (NameForm (map name_input shown));
        ClickHandler (content file) (map name_input shown)])) as Huploaded.
  { subst uploaded. cbn [step]. fold self.
    rewrite (on_button_click_run respond _ _ _ _ _ _ _ _ Hshown).
    rewrite Hfresh, registered_app, registered_methods.
    destruct shown as [| d ds']; [done |].
    cbn [shown_traceback registered app]. by rewrite app_nil_r. }
  subst typed clicked. rewrite Huploaded. cbn [fst snd].
  rewrite ui_output_methods. split; [reflexivity |].
  destruct (session_input respond typing
              {| image_story_generator := self;
                 genre_value := genre_value fe;
                 length_value := length_value fe;
                 click_handlers := [(content file, map name_input shown)] |}
              s1 Htyping)
    as (fe' & -> & Hself & Hforms & Hrange').
  cbn [fst snd image_story_generator click_handlers length_value]
    in Hself, Hforms, Hrange' |- *.
  specialize (Hrange' Hrange).
  destruct (click_handlers fe') as [| [image name_inputs] rest] eqn:Hhandlers;
    [done |].
  destruct rest as [| other rest]; [| done].
  unfold forms in Hforms. simpl in Hforms.
  injection Hforms as -> Hlabels.
  rewrite map_map in Hlabels.
  assert (map description name_inputs = shown) as Hdescriptions.
  { rewrite Hlabels. apply map_id. }
  exists name_inputs. split; [reflexivity |]. split; [exact Hdescriptions |].
  intros Hnamed. apply named_names_of in Hnamed.
  pose proof (slider_range_renders _ Hrange') as Hlimit.
  cbn [step]. rewrite Hhandlers, Hself. cbn [dispatch].
  destruct (generate_story_returns respond self (content file)
              (names_of name_inputs) (genre_value fe') (length_value fe') s1
              Hlimit) as (story & s3 & t & Hstory).
  pose proof (generate_story_requests respond self (content file)
                (names_of name_inputs) (genre_value fe') (length_value fe')
                s1 s2 told t2 Hlimit Htold) as Hrequests.
  rewrite Hstory in Hrequests. unfold trace in Hrequests.
  cbn [fst snd] in Hrequests.
  rewrite (on_generate_story_click_run respond _ _ _ _ _ _ _ _ _ Hnamed Hstory).
  cbn [fst snd shown_traceback app].
  rewrite app_nil_r, ui_requests_app, !ui_requests_methods, Hfirst, Hrequests.
  reflexivity.
Qed.

(** The backend describes two people at the upload and a child at the
    click: the form asks for the names of the two people, a name is typed
    into the second input, a genre is selected and the slider moved, and
    the story is told about the child. *)
Lemma upload_then_click_describes_the_image_twice_witness :
  let script :=
    [Fixture.ok (VStr Fixture.two_people);
     Fixture.ok (VStr UiFixture.one_person);
     Fixture.ok (VStr Fixture.story)] in
  let fe := front_end Fixture.generator in
  let typing :=
    [NameTyped 0 1 " Jamie "; GenreSelected "mystery"; LengthSet 150] in
  let outcome :=
    session Fixture.replay
      (ValueChanged UiFixture.upload :: typing ++ [ButtonClicked]) fe script in
  click_handlers fe = [] /\
  in_slider_range (length_value fe) /\
  Forall is_input typing /\
  ui_requests outcome.2
    = [vision_request Fixture.generator Fixture.jpeg;
       vision_request Fixture.generator Fixture.jpeg;
       story_request Fixture.generator
         (prompt_for " Jamie " "mystery" 150 ["A child with a blue hat"])].
Proof.
  cbv zeta.
  set (script :=
    [Fixture.ok (VStr Fixture.two_people);
     Fixture.ok (VStr UiFixture.one_person);
     Fixture.ok (VStr Fixture.story)]).
  set (fe := front_end Fixture.generator).
  set (typing :=
    [NameTyped 0 1 " Jamie "; GenreSelected "mystery"; LengthSet 150]).
  set (first := run Fixture.replay (process_image Fixture.jpeg Fixture.generator)
                  script).
  set (second := run Fixture.replay (process_image Fixture.jpeg Fixture.generator)
                   (backend_after first)).
  assert (click_handlers fe = []) as Hfresh by reflexivity.
  assert (in_slider_range (length_value fe)) as Hrange
    by (unfold in_slider_range, length_min, length_max; simpl; lia).
  assert (Forall is_input typing) as Htyping by (repeat constructor).
  assert (first =
    (inr ["A tall man in a red jacket"; "A woman with short black hair"],
     Fixture.generator, backend_after first, trace first)) as Hshown
    by reflexivity.
  assert (second =
    (inr ["A child with a blue hat"], Fixture.generator, backend_after second,
     trace second)) as Htold by reflexivity.
  assert (["A tall man in a red jacket"; "A woman with short black hair"]
          <> ([] : list string)) as Hne by discriminate.
  split; [exact Hfresh |]. split; [exact Hrange |]. split; [exact Htyping |].
  destruct (upload_then_click_describes_the_image_twice Fixture.replay
              script (backend_after first) (backend_after second)
              fe "photo.jpg" {| content := Fixture.jpeg |} [] typing
              ["A tall man in a red jacket"; "A woman with short black hair"]
              ["A child with a blue hat"] (trace first) (trace second)
              Hfresh Hrange Hshown Hne Htold Htyping)
    as (_ & name_inputs & Hhandlers & _ & Hrequests).
  assert (name_inputs = UiFixture.second_typed) as ->.
  { vm_compute in Hhandlers. by injection Hhandlers as <-. }
  specialize (Hrequests eq_refl).
  etransitivity; [| exact Hrequests].
  vm_compute. reflexivity.
Defined.

(** X18: every change of the upload widget runs [on_button_click], which
    never raises and leaves the generator as it is; when the vision stage
    returns descriptions, it appends one handler to those of the button,
    for the image and a new form, and keeps the handlers of the earlier
    uploads; otherwise the handlers stay as they are. *)
Theorem upload_registers_one_more_handler {B : Type}
    (respond : B -> request -> outcome * B) (s : B) (fe : FrontEnd)
    (name : string) (file : UploadedFile)
    (others : list (string * UploadedFile)) :
  let self := image_story_generator fe in
  let uploaded := step respond (ValueChanged ((name, file) :: others)) fe s in
  exists descriptions : list string,
    returned (run respond (process_image (content file) self) s)
      = inr descriptions /\
    click_handlers uploaded.1.1
      = click_handlers fe ++
        match descriptions with
        | [] => []
        | _ => [(content file, map name_input descriptions)]
        end /\
    image_story_generator uploaded.1.1 = self /\
    tracebacks uploaded.2 = [].
Proof.
  intros self uploaded. subst uploaded.
  destruct (process_image_total respond self (content file) s)
    as (ds & s1 & t1 & Hvision & _ & _).
  exists ds. split; [by rewrite Hvision |].
  destruct (on_button_click_total respond self s ((name, file) :: others))
    as (s' & t & Hrun & Htb & Hregistered).
  cbn [step]. fold self. rewrite Hrun. cbn [fst snd click_handlers
    image_story_generator shown_traceback].
  rewrite Hregistered, Hvision, app_nil_r. unfold returned; simpl.
  split; [by destruct ds |]. by split.
Qed.



(** X20: in every session of the front end that [run] sets up, whatever
    is uploaded, typed, selected and clicked and whatever the backend does,
    the generator stays the one [run] constructed, the length stays within
    the range of the slider, from 100 to 500, and no callback raises. *)
Theorem session_never_raises {B : Type}
    (respond : B -> request -> outcome * B) (s : B)
    (self : ImageStoryGenerator) (actions : list action) :
  let outcome := session respond actions (front_end self) s in
  image_story_generator outcome.1.1 = self /\
  in_slider_range (length_value outcome.1.1) /\
  tracebacks outcome.2 = [].
Proof.
  assert (forall (fe : FrontEnd) (s0 : B),
            in_slider_range (length_value fe) ->
            let outcome := session respond actions fe s0 in
            image_story_generator outcome.1.1 = image_story_generator fe /\
            in_slider_range (length_value outcome.1.1) /\
            tracebacks outcome.2 = []) as Hany.
  { induction actions as [| a rest IH]; intros fe s0 Hrange; [done |].
    cbv zeta. cbn [session].
    pose proof (step_invariant respond a fe s0 Hrange) as Hstep.
    cbv zeta in Hstep.
    destruct (step respond a fe s0) as [[fe1 s1] t1].
    cbn [fst snd] in Hstep. destruct Hstep as (Hself1 & Hrange1 & Htb1).
    specialize (IH fe1 s1 Hrange1). cbv zeta in IH.
    destruct (session respond rest fe1 s1) as [[fe2 s2] t2].
    cbn [fst snd] in IH |- *. destruct IH as (Hself2 & Hrange2 & Htb2).
    rewrite tracebacks_app, Htb1, Htb2.
    split; [congruence |]. by split. }
  apply Hany. unfold in_slider_range, length_min, length_max; simpl; lia.
Qed.
